(** * quart_session.sessions: server-side sessions and session interfaces

    A shallow embedding of [src/quart_session/sessions.py].  Python values
    are modelled by small inductive types, the session mapping by a finite
    map with string keys, and the effects of [open_session] and
    [save_session] (backend calls, log lines, identifier generation, raised
    exceptions) by a state-and-error monad over an explicit [World]. *)

From stdpp Require Import gmap strings list.
From Stdlib Require Import ZArith String Ascii Lia.

Local Open Scope Z_scope.

(** ** Python values *)

(** The values a session mapping can hold, as far as the engine looks at
    them: it tests truthiness and compares the entry [_addr] with a
    string. *)
#[warnings="-register-all"]
Inductive value : Type :=
| VNone
| VBool (b : bool)
| VInt (n : Z)
| VStr (s : string)
| VList (l : list value).

(** Python truthiness. *)
Definition truthy (v : value) : bool :=
  match v with
  | VNone => false
  | VBool b => b
  | VInt n => negb (n =? 0)
  | VStr s => negb (String.eqb s "")
  | VList l => match l with [] => false | _ :: _ => true end
  end.

(** [v != a] for a string [a]: only an equal string compares equal. *)
Definition py_ne_str (v : value) (a : string) : bool :=
  match v with
  | VStr s => negb (String.eqb s a)
  | _ => true
  end.

(** Truthiness of an optional string ([None] and [""] are falsy). *)
Definition str_truthy (o : option string) : bool :=
  match o with
  | Some s => negb (String.eqb s "")
  | None => false
  end.

(** What [serializer.loads] hands back when it does not raise: a mapping,
    or some other JSON value. *)
Inductive decoded : Type :=
| DMapping (d : gmap string value)
| DOther (v : value).

(** The exceptions that can leave the engine. *)
Inductive exn : Type :=
| TypeError
| AttributeError
| OverflowError
| UnicodeDecodeError.

Inductive outcome (A : Type) : Type :=
| Ok (a : A)
| Raise (e : exn).
Arguments Ok {A} a.
Arguments Raise {A} e.

(** ** datetime.timedelta *)

Record timedelta : Type := {
  days : Z;
  seconds : Z;
  microseconds : Z
}.

Definition total_seconds (td : timedelta) : Z :=
  days td * 60 * 60 * 24 + seconds td.

(** A normalised [timedelta], as Python keeps them. *)
Definition td_normal (td : timedelta) : Prop :=
  0 <= seconds td < 86400 /\ 0 <= microseconds td < 1000000.

Definition td_microseconds (td : timedelta) : Z :=
  (days td * 86400 + seconds td) * 1000000 + microseconds td.

(** ** datetime.datetime

    A date and time is kept as its microseconds since the epoch.  The
    class reaches from the first instant of year 1 to the last microsecond
    of year 9999; adding a [timedelta] that leads outside raises
    [OverflowError]. *)

Module datetime.

Definition min : Z := -62135596800000000.

Definition max : Z := 253402300799999999.

(** [now + td]. *)
Definition add (now : Z) (td : timedelta) : outcome Z :=
  let t := now + td_microseconds td in
  if (min <=? t) && (t <=? max) then Ok t else Raise OverflowError.

End datetime.

(** ** bytes.decode

    A text is kept as its UTF-8 encoding, so that decoding bytes is the
    check that they are well-formed UTF-8: one byte below 128, or a lead
    byte followed by the continuation bytes it calls for, without overlong
    forms, surrogates or code points above 10FFFF. *)

Module utf8.

(** The ranges in which the bytes after the lead byte [b] must lie;
    [None] when [b] cannot start a character. *)
Definition continuation (b : N) : option (list (N * N)) :=
  (if b <=? 127 then Some []
   else if (194 <=? b) && (b <=? 223) then Some [(128, 191)]
   else if b =? 224 then Some [(160, 191); (128, 191)]
   else if (225 <=? b) && (b <=? 236) then Some [(128, 191); (128, 191)]
   else if b =? 237 then Some [(128, 159); (128, 191)]
   else if (238 <=? b) && (b <=? 239) then Some [(128, 191); (128, 191)]
   else if b =? 240 then Some [(144, 191); (128, 191); (128, 191)]
   else if (241 <=? b) && (b <=? 243)
        then Some [(128, 191); (128, 191); (128, 191)]
   else if b =? 244 then Some [(128, 143); (128, 191); (128, 191)]
   else None)%N.

Fixpoint valid_from (pending : list (N * N)) (s : string) : bool :=
  match s with
  | EmptyString => match pending with [] => true | _ :: _ => false end
  | String c rest =>
      let b := N_of_ascii c in
      match pending with
      | (lo, hi) :: pending' =>
          ((lo <=? b) && (b <=? hi))%N && valid_from pending' rest
      | [] =>
          match continuation b with
          | Some pending' => valid_from pending' rest
          | None => false
          end
      end
  end.

(** Whether [data.decode()] succeeds. *)
Definition valid (s : string) : bool := valid_from [] s.

End utf8.

(** ** uuid.uuid4 and its string form *)

Module uuid.

Definition hex_digit (n : Z) : ascii :=
  match n with
  | 0 => "0" | 1 => "1" | 2 => "2" | 3 => "3"
  | 4 => "4" | 5 => "5" | 6 => "6" | 7 => "7"
  | 8 => "8" | 9 => "9" | 10 => "a" | 11 => "b"
  | 12 => "c" | 13 => "d" | 14 => "e" | _ => "f"
  end%char.

(** ['%0kx' % n] for [0 <= n < 16^k]: [k] hexadecimal digits, the most
    significant first. *)
Fixpoint hex (k : nat) (n : Z) : string :=
  match k with
  | O => ""
  | S k' => hex k' (Z.shiftr n 4) +:+ String (hex_digit (Z.land n 15)) ""
  end.

(** [UUID(bytes=os.urandom(16), version=4)]: the variant and version bits
    are forced on the 128 random bits. *)
Definition uuid4 (rnd : Z) : Z :=
  let int := Z.land rnd (Z.ones 128) in
  let int := Z.land int (Z.lnot (Z.shiftl 49152 48)) in
  let int := Z.lor int (Z.shiftl 32768 48) in
  let int := Z.land int (Z.lnot (Z.shiftl 61440 64)) in
  Z.lor int (Z.shiftl 4 76).

(** [str(u)]: the 32 digits in groups of 8-4-4-4-12. *)
Definition str (u : Z) : string :=
  let h := hex 32 u in
  substring 0 8 h +:+ "-" +:+ substring 8 4 h +:+ "-" +:+
  substring 12 4 h +:+ "-" +:+ substring 16 4 h +:+ "-" +:+
  substring 20 12 h.

End uuid.

(** ** itsdangerous.Signer *)

Module itsdangerous.

(** [signed.rsplit(".", 1)] when the separator occurs in [signed]: the text
    before the last separator and the text after it. *)
Fixpoint rsplit (signed : string) : option (string * string) :=
  match signed with
  | EmptyString => None
  | String c rest =>
      match rsplit rest with
      | Some (v, sig) => Some (String c v, sig)
      | None => if Ascii.eqb c "." then Some (EmptyString, rest) else None
      end
  end.

(** Whether the separator occurs in a text. *)
Fixpoint has_sep (s : string) : bool :=
  match s with
  | EmptyString => false
  | String c rest => Ascii.eqb c "." || has_sep rest
  end.

Section Signer.
(** [digest secret salt v]: the encoded keyed hash of a value under the key
    derived from the secret and the salt (HMAC, base64), as
    [get_signature] returns it.  [verify secret salt v sig]: whether
    [verify_signature] accepts [sig] for [v]; it decodes [sig] and compares
    hashes, so that it may accept more than one spelling of a signature. *)
Variable digest : string -> string -> string -> string.
Variable verify : string -> string -> string -> string -> bool.

Record Signer : Type := {
  signer_secret : string;
  signer_salt : string
}.

Definition get_signature (s : Signer) (v : string) : string :=
  digest (signer_secret s) (signer_salt s) v.

Definition sign (s : Signer) (v : string) : string :=
  v +:+ "." +:+ get_signature s v.

Definition verify_signature (s : Signer) (v sig : string) : bool :=
  verify (signer_secret s) (signer_salt s) v sig.

(** [None] stands for [BadSignature]. *)
Definition unsign (s : Signer) (signed : string) : option string :=
  match rsplit signed with
  | None => None
  | Some (v, sig) => if verify_signature s v sig then Some v else None
  end.

(** What the library promises of a signer and the signature it gives [v]:
    the signature is in the base64 alphabet, so it holds no separator, and
    the signer accepts it for [v]. *)
Definition sound (s : Signer) (v : string) : Prop :=
  has_sep (get_signature s v) = false
  /\ verify_signature s v (get_signature s v) = true.
End Signer.

End itsdangerous.

(** ** The host framework: application, request, response *)

(** The part of [quart.Quart] the engine reads.  [secret_key] may be unset
    ([None]); the cookie attributes are what the inherited
    [get_cookie_domain], [get_cookie_path], [get_cookie_httponly] and
    [get_cookie_secure] return for the application. *)
Record Quart : Type := {
  session_cookie_name : string;
  secret_key : option string;
  permanent_session_lifetime : timedelta;
  cookie_domain : option string;
  cookie_path : string;
  cookie_httponly : bool;
  cookie_secure : bool
}.

(** The part of the request the engine reads.  Header names are matched as
    given. *)
Record Request : Type := {
  cookies : gmap string string;
  headers : gmap string string;
  remote_addr : string
}.

(** [request.headers.get(name, fallback)]. *)
Definition headers_get (request : Request) (name fallback : string) : string :=
  default fallback (headers request !! name).

(** The two calls the engine makes on a response. *)
Inductive cookie_op : Type :=
| SetCookie (name value : string) (expires : option Z) (httponly : bool)
            (domain : option string) (path : string) (secure : bool)
| DeleteCookie (name : string) (domain : option string) (path : string).

(** A response: whether its body is a [FileBody], and the cookie calls made
    on it so far, the latest first. *)
Record Response : Type := {
  is_file_body : bool;
  cookie_ops : list cookie_op
}.

Definition set_cookie (response : Response) (name value : string)
    (expires : option Z) (httponly : bool) (domain : option string)
    (path : string) (secure : bool) : Response :=
  {| is_file_body := is_file_body response;
     cookie_ops :=
       SetCookie name value expires httponly domain path secure
       :: cookie_ops response |}.

Definition delete_cookie (response : Response) (name : string)
    (domain : option string) (path : string) : Response :=
  {| is_file_body := is_file_body response;
     cookie_ops := DeleteCookie name domain path :: cookie_ops response |}.

(** ** Sessions *)

(** A [ServerSideSession]: the mapping it is as a [dict], its [sid], the
    [modified] flag the framework's [SecureCookieSession] keeps, and the
    [_dirty] flag of this class. *)
Record Session : Type := {
  data : gmap string value;
  sid : string;
  modified : bool;
  _dirty : bool
}.

(** [session[key] = v], which the framework's session class also records in
    [modified]. *)
Definition setitem (key : string) (v : value) (s : Session) : Session :=
  {| data := <[key := v]> (data s); sid := sid s;
     modified := true; _dirty := _dirty s |}.

(** [del session[key]] for a key that is present. *)
Definition delitem (key : string) (s : Session) : Session :=
  {| data := delete key (data s); sid := sid s;
     modified := true; _dirty := _dirty s |}.

(** The framework's [permanent] property: the entry [_permanent] of the
    mapping, [False] when absent. *)
Definition get_permanent (s : Session) : bool :=
  match data s !! "_permanent" with
  | Some v => truthy v
  | None => false
  end.

Definition set_permanent (b : bool) (s : Session) : Session :=
  setitem "_permanent" (VBool b) s.

(** The [addr] property of [ServerSideSession]. *)
Definition get_addr (s : Session) : value :=
  default (VBool false) (data s !! "_addr").

Definition set_addr (a : string) (s : Session) : Session :=
  setitem "_addr" (VStr a) s.

(** [ServerSideSession.dirty]. *)
Definition dirty (s : Session) : Session :=
  {| data := data s; sid := sid s; modified := modified s; _dirty := true |}.

(** [**(initial or {})] in the constructor: [None] and falsy values give the
    empty mapping, a mapping gives its entries as keyword arguments, any
    other truthy value is refused by the call.  The call goes to the
    framework's [__init__(self, *args, **kwargs)], a Python function, so a
    keyword named [self] clashes with the instance and is refused as
    well. *)
Definition initial_mapping (initial : option decoded)
    : outcome (gmap string value) :=
  match initial with
  | None => Ok ∅
  | Some (DMapping d) =>
      match d !! "self" with
      | Some _ => Raise TypeError
      | None => Ok d
      end
  | Some (DOther v) => if truthy v then Raise TypeError else Ok ∅
  end.

(** The constructor body once the mapping is built: [if permanent] and
    [if addr] assign through the two properties, and so write into the
    mapping. *)
Definition init_session (d : gmap string value) (sid : string)
    (permanent : option bool) (addr : option string) : Session :=
  let s := {| data := d; sid := sid; modified := false; _dirty := false |} in
  let s := match permanent with
           | Some true => set_permanent true s
           | _ => s
           end in
  let s := match addr with
           | Some a => if String.eqb a "" then s else set_addr a s
           | None => s
           end in
  {| data := data s; sid := sid; modified := modified s; _dirty := false |}.

(** [ServerSideSession.__init__(initial, sid, permanent, addr)].  The
    classes [RedisSession] and [MemcachedSession], the [session_class] of
    the interfaces, add nothing to it. *)
Definition ServerSideSession (initial : option decoded) (sid : string)
    (permanent : option bool) (addr : option string) : outcome Session :=
  match initial_mapping initial with
  | Ok d => Ok (init_session d sid permanent addr)
  | Raise e => Raise e
  end.

(** ** The world outside the engine *)

Inductive backend_call : Type :=
| CallGet (key : string)
| CallSet (key payload : string) (expiry : Z)
| CallDelete (key : string).

(** What the engine reads and changes besides its arguments: the backing
    store, the calls made on its client (the latest first), the warnings
    logged (the latest first), the random source behind [uuid4] with the
    number of draws made, and the clock in microseconds since the epoch.
    The store holds bytes; a text written to it is there as its UTF-8
    encoding.  An entry leaves the store by [delete] only: expiry is the
    store's own business, what the engine decides is the expiry it asks
    for.  The client's calls themselves do not fail here. *)
Record World : Type := {
  store : gmap string string;
  calls : list backend_call;
  warnings : list string;
  entropy : nat -> Z;
  drawn : nat;
  clock : Z
}.

Definition M (A : Type) : Type := World -> outcome A * World.

#[global] Instance M_ret : MRet M := fun A (a : A) w => (Ok a, w).

#[global] Instance M_bind : MBind M := fun A B (k : A -> M B) (m : M A) w =>
  match m w with
  | (Ok a, w') => k a w'
  | (Raise e, w') => (Raise e, w')
  end.

Definition lift {A : Type} (o : outcome A) : M A := fun w => (o, w).

(** The world once [msg] is logged. *)
Definition logged (msg : string) (w : World) : World :=
  {| store := store w; calls := calls w; warnings := msg :: warnings w;
     entropy := entropy w; drawn := drawn w; clock := clock w |}.

(** [app.logger.warning(msg)]. *)
Definition warning (msg : string) : M unit := fun w => (Ok tt, logged msg w).

(** [int(time.time())]. *)
Definition time_int (w : World) : Z := Z.quot (clock w) 1000000.

(** The call [c] reaches the client and leaves the store as [st]. *)
Definition client (c : backend_call) (st : gmap string string) (w : World)
    : World :=
  {| store := st; calls := c :: calls w; warnings := warnings w;
     entropy := entropy w; drawn := drawn w; clock := clock w |}.

(** ** Session interfaces *)

Record Config : Type := {
  SESSION_HIJACK_PROTECTION : bool;
  SESSION_HIJACK_REVERSE_PROXY : bool;
  SESSION_EXPLICIT : bool;
  SESSION_STATIC_FILE : bool
}.

(** The concrete interfaces; they differ in their three backend methods. *)
Inductive backend : Type :=
| Redis
| RedisTrio
| Memcached.

Record SessionInterface : Type := {
  kind : backend;
  key_prefix : string;
  use_signer : bool;
  permanent : bool;
  _config : Config
}.

(** The identifier the next call of [_generate_sid] gives, and the world
    after that draw. *)
Definition next_sid (w : World) : string :=
  uuid.str (uuid.uuid4 (entropy w (drawn w))).

Definition drew (w : World) : World :=
  {| store := store w; calls := calls w; warnings := warnings w;
     entropy := entropy w; drawn := S (drawn w); clock := clock w |}.

(** [SessionInterface._generate_sid]: [str(uuid4())]. *)
Definition _generate_sid : M string := fun w => (Ok (next_sid w), drew w).

(** [MemcachedSessionInterface._get_memcache_timeout]. *)
Definition _get_memcache_timeout (timeout : Z) : M Z := fun w =>
  (Ok (if timeout >? 2592000 then timeout + time_int w else timeout), w).

(** What [_backend_get] returns for [key] on the store [st].  The
    interfaces on Redis and Memcached hand on the bytes the client gives
    them.  [RedisTrioSessionInterface] hands on a payload only when it is
    not empty, and decodes it first: bytes that are not well-formed UTF-8
    raise. *)
Definition backend_lookup (k : backend) (st : gmap string string)
    (key : string) : outcome (option string) :=
  match k with
  | Redis | Memcached => Ok (st !! key)
  | RedisTrio =>
      match st !! key with
      | Some payload =>
          if String.eqb payload "" then Ok None
          else if utf8.valid payload then Ok (Some payload)
          else Raise UnicodeDecodeError
      | None => Ok None
      end
  end.

Definition _backend_get (self : SessionInterface) (app : Quart)
    (key : string) : M (option string) := fun w =>
  (backend_lookup (kind self) (store w) key,
   client (CallGet key) (store w) w).

(** The client's [setex] or [set]: the entry is stored with [expiry]. *)
Definition client_set (key payload : string) (expiry : Z) : M unit := fun w =>
  (Ok tt, client (CallSet key payload expiry) (<[key := payload]> (store w)) w).

Definition _backend_set (self : SessionInterface) (app : Quart)
    (key payload : string) : M unit :=
  match kind self with
  | Redis | RedisTrio =>
      client_set key payload (total_seconds (permanent_session_lifetime app))
  | Memcached =>
      expiry ← _get_memcache_timeout
                 (total_seconds (permanent_session_lifetime app));
      client_set key payload expiry
  end.

Definition _backend_delete (self : SessionInterface) (app : Quart)
    (key : string) : M unit := fun w =>
  (Ok tt, client (CallDelete key) (delete key (store w)) w).

(** How long after the call an entry written with [expiry] lives: the
    interfaces on Redis pass the seconds themselves; Memcached reads a value
    above 30 days as the date of expiry. *)
Definition lifetime_of (k : backend) (now expiry : Z) : Z :=
  match k with
  | Redis | RedisTrio => expiry
  | Memcached => if expiry >? 2592000 then expiry - now else expiry
  end.

Section Engine.
(** The keyed hash behind [itsdangerous.Signer] and its verification, and
    the [dumps] and [loads] of the class attribute [serializer]; [loads]
    gives [None] when it raises. *)
Variable digest : string -> string -> string -> string.
Variable verify : string -> string -> string -> string -> bool.
Variable dumps : gmap string value -> string.
Variable loads : string -> option decoded.

(** [SessionInterface._get_signer]. *)
Definition _get_signer (app : Quart) : option itsdangerous.Signer :=
  if str_truthy (secret_key app)
  then match secret_key app with
       | Some k =>
           Some {| itsdangerous.signer_secret := k;
                   itsdangerous.signer_salt := "quart-session" |}
       | None => None
       end
  else None.

(** The dictionary [options] of [open_session], without its entry [sid],
    which is assigned anew before every use. *)
Record Options : Type := {
  o_permanent : bool;
  o_addr : option string
}.

(** [options['sid'] = self._generate_sid()] followed by
    the return of [session_class] applied to the keywords of [options]. *)
Definition fresh_session (options : Options) : M (option Session) :=
  new_sid ← _generate_sid;
  s ← lift (ServerSideSession None new_sid (Some (o_permanent options))
              (o_addr options));
  mret (Some s).

(** [data.get('_addr', addr) != addr]; only a mapping has [get]. *)
Definition addr_differs (data : decoded) (addr : string) : outcome bool :=
  match data with
  | DMapping d => Ok (py_ne_str (default (VStr addr) (d !! "_addr")) addr)
  | DOther _ => Raise AttributeError
  end.

(** The address [addr] computed at the start of [open_session] and the
    dictionary [options] built from it. *)
Definition early_addr (self : SessionInterface) (request : Request)
    : option string :=
  if SESSION_HIJACK_PROTECTION (_config self)
  then Some (headers_get request "X-Forwarded-For" (remote_addr request))
  else None.

Definition options_of (self : SessionInterface) (request : Request)
    : Options :=
  {| o_permanent := permanent self; o_addr := early_addr self request |}.

(** The address recomputed for the comparison with the stored one. *)
Definition check_addr (self : SessionInterface) (request : Request)
    : string :=
  if SESSION_HIJACK_REVERSE_PROXY (_config self)
  then headers_get request "X-Forwarded-For" (remote_addr request)
  else remote_addr request.

(** [open_session] from the backend lookup on, for the identifier [sid]
    in its unsigned form. *)
Definition open_stored (self : SessionInterface) (app : Quart)
    (request : Request) (options : Options) (sid : string)
    : M (option Session) :=
  val ← _backend_get self app (key_prefix self +:+ sid);
  match val with
  | None => fresh_session options
  | Some val =>
      match loads val with
      | None =>
          warning ("Failed to deserialize session data for sid: " +:+ sid
                   +:+ ". Generating new sid.");;
          fresh_session options
      | Some data =>
          let rehydrate : M (option Session) :=
            s ← lift (ServerSideSession (Some data) sid None None);
            mret (Some s) in
          if SESSION_HIJACK_PROTECTION (_config self) then
            let addr := check_addr self request in
            differs ← lift (addr_differs data addr);
            if differs : bool then
              _backend_delete self app (key_prefix self +:+ sid);;
              fresh_session options
            else rehydrate
          else rehydrate
      end
  end.

(** [SessionInterface.open_session]; the result [None] is Python's. *)
Definition open_session (self : SessionInterface) (app : Quart)
    (request : Request) : M (option Session) :=
  let sid := cookies request !! session_cookie_name app in
  let options := options_of self request in
  match sid with
  | None => fresh_session options
  | Some sid =>
      if String.eqb sid "" then fresh_session options
      else if use_signer self then
        match _get_signer app with
        | None =>
            warning "Failed to obtain a valid signer.";;
            mret None
        | Some signer =>
            match itsdangerous.unsign verify signer sid with
            | None =>
                warning ("Bad signature for sid: " +:+ sid +:+ ".");;
                fresh_session options
            | Some raw => open_stored self app request options raw
            end
        end
      else open_stored self app request options sid
  end.

(** The inherited [get_expiration_time]: [utcnow()] plus the lifetime for
    a permanent session, nothing otherwise. *)
Definition get_expiration_time (app : Quart) (session : Session)
    : M (option Z) := fun w =>
  if get_permanent session
  then match datetime.add (clock w) (permanent_session_lifetime app) with
       | Ok t => (Ok (Some t), w)
       | Raise e => (Raise e, w)
       end
  else (Ok None, w).

(** [SessionInterface.save_session]; the result is the response after the
    call. *)
Definition save_session (self : SessionInterface) (app : Quart)
    (session : Session) (response : Response) : M Response :=
  if SESSION_EXPLICIT (_config self) && negb (_dirty session)
  then mret response
  else if negb (SESSION_STATIC_FILE (_config self)) && is_file_body response
  then mret response
  else
    let session_key := key_prefix self +:+ sid session in
    let domain := cookie_domain app in
    let path := cookie_path app in
    if Nat.eqb (size (data session)) 0 then
      if modified session then
        _backend_delete self app session_key;;
        mret (delete_cookie response (session_cookie_name app) domain path)
      else mret response
    else
      let httponly := cookie_httponly app in
      let secure := cookie_secure app in
      expires ← get_expiration_time app session;
      let val := dumps (data session) in
      _backend_set self app session_key val;;
      session_id ← (if use_signer self then
                      match _get_signer app with
                      | Some signer =>
                          mret (itsdangerous.sign digest signer (sid session))
                      | None => lift (Raise AttributeError)
                      end
                    else mret (sid session));
      mret (set_cookie response (session_cookie_name app) session_id
              expires httponly domain path secure).

(** *** How a request fares *)

(** The request carries the session cookie [c], and [c] is not empty. *)
Definition has_cookie (app : Quart) (request : Request) (c : string)
    : Prop :=
  cookies request !! session_cookie_name app = Some c
  /\ String.eqb c "" = false.

(** The identifier the engine reads off the cookie [c]: [c] itself, or
    with signing what the signer strips it to; [None] when there is no
    signer or the signature is bad. *)
Definition identifier_of (self : SessionInterface) (app : Quart)
    (c : string) : option string :=
  if use_signer self then
    match _get_signer app with
    | Some signer => itsdangerous.unsign verify signer c
    | None => None
    end
  else Some c.

(** The stored address, if any, equals [addr]. *)
Definition addr_matches (d : gmap string value) (addr : string) : bool :=
  negb (py_ne_str (default (VStr addr) (d !! "_addr")) addr).

(** The hijack check lets the stored mapping [d] through. *)
Definition hijack_passes (self : SessionInterface) (request : Request)
    (d : gmap string value) : bool :=
  negb (SESSION_HIJACK_PROTECTION (_config self))
  || addr_matches d (check_addr self request).

(** The five ways [open_session] turns a request down. *)
Inductive rejection : Type :=
| MissingCookie
| BadSignature
| AbsentKey
| DecodeFailure
| AddressMismatch.

(** [rejects self app request w r old]: in the world [w] the request is
    turned down for the reason [r]; [old] is the identifier turned down,
    if the request had one. *)
Inductive rejects (self : SessionInterface) (app : Quart)
    (request : Request) (w : World) : rejection -> option string -> Prop :=
| rejects_missing :
    str_truthy (cookies request !! session_cookie_name app) = false ->
    rejects self app request w MissingCookie None
| rejects_signature c signer :
    has_cookie app request c ->
    use_signer self = true ->
    _get_signer app = Some signer ->
    itsdangerous.unsign verify signer c = None ->
    rejects self app request w BadSignature (Some c)
| rejects_absent c raw :
    has_cookie app request c ->
    identifier_of self app c = Some raw ->
    backend_lookup (kind self) (store w) (key_prefix self +:+ raw)
    = Ok None ->
    rejects self app request w AbsentKey (Some raw)
| rejects_decode c raw val :
    has_cookie app request c ->
    identifier_of self app c = Some raw ->
    backend_lookup (kind self) (store w) (key_prefix self +:+ raw)
    = Ok (Some val) ->
    loads val = None ->
    rejects self app request w DecodeFailure (Some raw)
| rejects_address c raw val d :
    has_cookie app request c ->
    identifier_of self app c = Some raw ->
    backend_lookup (kind self) (store w) (key_prefix self +:+ raw)
    = Ok (Some val) ->
    loads val = Some (DMapping d) ->
    hijack_passes self request d = false ->
    rejects self app request w AddressMismatch (Some raw).

(** The value [save_session] gives the cookie: the identifier, signed if
    signing is on; [None] when signing is on and there is no signer. *)
Definition cookie_value (self : SessionInterface) (app : Quart)
    (session : Session) : option string :=
  if use_signer self then
    match _get_signer app with
    | Some signer => Some (itsdangerous.sign digest signer (sid session))
    | None => None
    end
  else Some (sid session).

(** [save_session] gets past its two early returns. *)
Definition passes_early_checks (self : SessionInterface)
    (session : Session) (response : Response) : bool :=
  negb (SESSION_EXPLICIT (_config self) && negb (_dirty session))
  && negb (negb (SESSION_STATIC_FILE (_config self))
           && is_file_body response).

(** The session a rejected request gets: no stored entry, the identifier
    [new_sid], and what the constructor adds for [options]. *)
Definition new_session (self : SessionInterface) (request : Request)
    (new_sid : string) : Session :=
  init_session ∅ new_sid (Some (permanent self)) (early_addr self request).

(** The session rebuilt from the stored mapping [d] under [sid]. *)
Definition rehydrated (d : gmap string value) (sid : string) : Session :=
  init_session d sid None None.

(** [session_class(data, sid)] as the last step of [open_session]: the
    session, or what the constructor raises. *)
Definition rebuilt (data : decoded) (sid : string) : outcome (option Session) :=
  match ServerSideSession (Some data) sid None None with
  | Ok s => Ok (Some s)
  | Raise e => Raise e
  end.

(** The cookie's expiry date can be computed: the session is not
    permanent, or now plus the lifetime is a date the calendar has. *)
Definition expiry_representable (app : Quart) (session : Session)
    (w : World) : bool :=
  negb (get_permanent session)
  || match datetime.add (clock w) (permanent_session_lifetime app) with
     | Ok _ => true
     | Raise _ => false
     end.
End Engine.

(** ** A sample deployment

    Concrete collaborators and inputs on which the engine is run below: a
    keyed checksum in place of the HMAC, a serializer with a codebook of
    two mappings, an application and a few requests. *)

Module Sample.

Fixpoint checksum (s : string) : Z :=
  match s with
  | EmptyString => 7
  | String c rest => (Z.of_N (N_of_ascii c) + 31 * checksum rest) mod 65536
  end.

Definition digest (secret salt v : string) : string :=
  uuid.hex 4 (checksum (secret +:+ salt +:+ v)).

Definition verify (secret salt v sig : string) : bool :=
  String.eqb sig (digest secret salt v).

Definition saved : gmap string value :=
  <["user" := VStr "alice"]> (<["count" := VInt 3]> ∅).

Definition payload : string := "user=alice;count=3".

Definition dumps (d : gmap string value) : string := payload.

(** A mapping bound to the address of the client that created it. *)
Definition bound : gmap string value :=
  <["_addr" := VStr "10.0.0.1"]> (<["user" := VStr "alice"]> ∅).

Definition bound_payload : string := "_addr=10.0.0.1;user=alice".

Definition loads (s : string) : option decoded :=
  if String.eqb s payload then Some (DMapping saved)
  else if String.eqb s bound_payload then Some (DMapping bound)
  else None.

Definition config (hijack proxy explicit : bool) : Config :=
  {| SESSION_HIJACK_PROTECTION := hijack;
     SESSION_HIJACK_REVERSE_PROXY := proxy;
     SESSION_EXPLICIT := explicit;
     SESSION_STATIC_FILE := false |}.

Definition interface (k : backend) (signer perm : bool) (c : Config)
    : SessionInterface :=
  {| kind := k; key_prefix := "session:"; use_signer := signer;
     permanent := perm; _config := c |}.

Definition app (secret : option string) (lifetime_days : Z) : Quart :=
  {| session_cookie_name := "session";
     secret_key := secret;
     permanent_session_lifetime :=
       {| days := lifetime_days; seconds := 0; microseconds := 0 |};
     cookie_domain := None;
     cookie_path := "/";
     cookie_httponly := true;
     cookie_secure := false |}.

(** A request from [remote] with the session cookie [cookie], if any. *)
Definition request (cookie : option string) (remote : string) : Request :=
  {| cookies := match cookie with
                | Some c => <["session" := c]> ∅
                | None => ∅
                end;
     headers := ∅;
     remote_addr := remote |}.

Definition world (st : gmap string string) : World :=
  {| store := st; calls := []; warnings := [];
     entropy := fun n => 12345678901234567890 + Z.of_nat n;
     drawn := 0;
     clock := 1700000000000000 |}.

Definition response : Response := {| is_file_body := false; cookie_ops := [] |}.

Definition session (d : gmap string value) (is_modified is_dirty : bool)
    : Session :=
  {| data := d; sid := "abc-123"; modified := is_modified;
     _dirty := is_dirty |}.

End Sample.

(** ** Variations of a response *)

(** The response [response] after further cookie calls. *)
Definition with_cookie_ops (ops : list cookie_op) (response : Response)
    : Response :=
  {| is_file_body := is_file_body response; cookie_ops := ops |}.

(** ** Further sample inputs *)

Module Fixtures.

(** A mapping bound to a forwarded address, and payloads that decode to
    something that is not a mapping. *)
Definition forwarded_bound : gmap string value :=
  <["_addr" := VStr "203.0.113.7"]> ∅.

Definition forwarded_payload : string := "_addr=203.0.113.7".

(** A mapping in which the application stored something under [self]. *)
Definition reserved : gmap string value := <["self" := VInt 1]> ∅.

Definition reserved_payload : string := "self=1".

Definition dumps (d : gmap string value) : string :=
  match d !! "self" with
  | Some _ => reserved_payload
  | None => Sample.dumps d
  end.

Definition loads (s : string) : option decoded :=
  if String.eqb s "[1, 2]" then Some (DOther (VList [VInt 1; VInt 2]))
  else if String.eqb s "null" then Some (DOther VNone)
  else if String.eqb s forwarded_payload then Some (DMapping forwarded_bound)
  else if String.eqb s reserved_payload then Some (DMapping reserved)
  else Sample.loads s.

(** A payload that is not well-formed UTF-8: the single byte 255. *)
Definition not_utf8 : string := String "255"%char EmptyString.

(** A request from [remote] that carries the header [X-Forwarded-For]. *)
Definition forwarded (cookie : option string) (xff remote : string)
    : Request :=
  {| cookies := match cookie with
                | Some c => <["session" := c]> ∅
                | None => ∅
                end;
     headers := <["X-Forwarded-For" := xff]> ∅;
     remote_addr := remote |}.

End Fixtures.

(** * Properties *)

(** ** Strings *)

Lemma length_append (s1 s2 : string) :
  String.length (s1 +:+ s2) = (String.length s1 + String.length s2)%nat.
Proof.
  induction s1 as [|c s1 IH]; simpl; [reflexivity | now rewrite IH].
Qed.

Lemma length_substring (s : string) :
  forall n m : nat,
    (n + m <= String.length s)%nat -> String.length (substring n m s) = m.
Proof.
  induction s as [|c s IH]; intros n m Hle; simpl in *.
  - destruct n, m; simpl in *; try reflexivity; lia.
  - destruct n as [|n].
    + destruct m as [|m]; simpl; [reflexivity|].
      f_equal. apply (IH 0%nat m). lia.
    + apply IH. lia.
Qed.

Lemma eqb_empty_false (s : string) : s <> "" -> String.eqb s "" = false.
Proof. intros H. now apply String.eqb_neq. Qed.

Lemma append_nonempty_r (s1 s2 : string) : s2 <> "" -> s1 +:+ s2 <> "".
Proof.
  intros H E. apply (f_equal String.length) in E.
  rewrite length_append in E. destruct s2; [congruence | simpl in E; lia].
Qed.

(** ** Generated identifiers *)

Lemma length_hex (k : nat) : forall n : Z, String.length (uuid.hex k n) = k.
Proof.
  induction k as [|k IH]; intros n; simpl; [reflexivity|].
  rewrite length_append, IH. simpl. lia.
Qed.

(** [str(uuid4())] is a text of 36 characters. *)
Lemma length_str (u : Z) : String.length (uuid.str u) = 36%nat.
Proof.
  unfold uuid.str. cbv zeta.
  repeat rewrite length_append.
  repeat rewrite length_substring by (rewrite length_hex; lia).
  reflexivity.
Qed.

Lemma next_sid_nonempty (w : World) : next_sid w <> "".
Proof.
  unfold next_sid. intros E. apply (f_equal String.length) in E.
  rewrite length_str in E. discriminate.
Qed.

(** A generated identifier holds no separator of the signer. *)
Lemma has_sep_append (s1 s2 : string) :
  itsdangerous.has_sep (s1 +:+ s2)
  = itsdangerous.has_sep s1 || itsdangerous.has_sep s2.
Proof.
  induction s1 as [|c s1 IH]; simpl; [reflexivity|].
  now rewrite IH, orb_assoc.
Qed.

Lemma has_sep_substring (s : string) :
  itsdangerous.has_sep s = false ->
  forall n m, itsdangerous.has_sep (substring n m s) = false.
Proof.
  induction s as [|c s IH]; intros H n m.
  - destruct n, m; reflexivity.
  - simpl in H. apply orb_false_iff in H as [Hc Hs].
    destruct n as [|n]; simpl.
    + destruct m as [|m]; simpl; [reflexivity|].
      now rewrite Hc, (IH Hs 0%nat m).
    + now apply IH.
Qed.

Lemma hex_digit_not_sep (n : Z) : Ascii.eqb (uuid.hex_digit n) "." = false.
Proof.
  unfold uuid.hex_digit.
  destruct n as [|p|p]; try reflexivity.
  do 4 (destruct p as [p|p|]; try reflexivity).
Qed.

Lemma has_sep_hex (k : nat) :
  forall n, itsdangerous.has_sep (uuid.hex k n) = false.
Proof.
  induction k as [|k IH]; intros n; simpl; [reflexivity|].
  rewrite has_sep_append, IH. simpl. now rewrite hex_digit_not_sep.
Qed.

Lemma has_sep_str (u : Z) : itsdangerous.has_sep (uuid.str u) = false.
Proof.
  unfold uuid.str. cbv zeta.
  repeat rewrite has_sep_append.
  repeat rewrite (has_sep_substring _ (has_sep_hex 32 u)).
  reflexivity.
Qed.

(** ** The signer *)

Lemma rsplit_no_sep (s : string) :
  itsdangerous.has_sep s = false -> itsdangerous.rsplit s = None.
Proof.
  induction s as [|c s IH]; simpl; [reflexivity|].
  intros H. apply orb_false_iff in H as [Hc Hs].
  now rewrite (IH Hs), Hc.
Qed.

Lemma rsplit_sign (v sig : string) :
  itsdangerous.has_sep sig = false ->
  itsdangerous.rsplit (v +:+ "." +:+ sig) = Some (v, sig).
Proof.
  intros H. induction v as [|c v IH].
  - change (itsdangerous.rsplit (String "." sig) = Some (""%string, sig)).
    cbn [itsdangerous.rsplit]. now rewrite (rsplit_no_sep _ H).
  - change (itsdangerous.rsplit (String c (v +:+ "." +:+ sig))
            = Some (String c v, sig)).
    cbn [itsdangerous.rsplit]. now rewrite IH.
Qed.

(** What [rsplit] cuts off can be put back. *)
Lemma rsplit_inv (s : string) :
  forall v sig, itsdangerous.rsplit s = Some (v, sig) -> s = v +:+ "." +:+ sig.
Proof.
  induction s as [|c s IH]; simpl; intros v sig H; [discriminate|].
  destruct (itsdangerous.rsplit s) as [[v' sig']|] eqn:E.
  - injection H as <- <-.
    change (String c s = String c (v' +:+ "." +:+ sig')).
    f_equal. now apply IH.
  - destruct (Ascii.eqb c ".") eqn:Ec; [|discriminate].
    injection H as <- <-. apply Ascii.eqb_eq in Ec. now subst c.
Qed.

Section SignerFacts.
Variable digest : string -> string -> string -> string.
Variable verify : string -> string -> string -> string -> bool.

(** What a sound signer signed, it strips again. *)
Lemma unsign_sign (signer : itsdangerous.Signer) (v : string) :
  itsdangerous.sound digest verify signer v ->
  itsdangerous.unsign verify signer (itsdangerous.sign digest signer v)
  = Some v.
Proof.
  intros [Hsep Hv]. unfold itsdangerous.unsign, itsdangerous.sign.
  rewrite (rsplit_sign _ _ Hsep). now rewrite Hv.
Qed.

Lemma sign_nonempty (signer : itsdangerous.Signer) (v : string) :
  itsdangerous.sign digest signer v <> "".
Proof.
  unfold itsdangerous.sign. apply append_nonempty_r. discriminate.
Qed.

(** The empty identifier, signed, is accepted like any other. *)
Lemma unsign_empty (signer : itsdangerous.Signer) :
  itsdangerous.sound digest verify signer "" ->
  itsdangerous.unsign verify signer
    ("." +:+ itsdangerous.get_signature digest signer "") = Some "".
Proof. intros H. now apply (unsign_sign signer ""). Qed.
End SignerFacts.

(** ** Session construction *)

Lemma rehydrated_eq (d : gmap string value) (i : string) :
  rehydrated d i = {| data := d; sid := i; modified := false; _dirty := false |}.
Proof. reflexivity. Qed.

Lemma init_session_sid (d : gmap string value) (i : string)
    (p : option bool) (a : option string) :
  sid (init_session d i p a) = i.
Proof. reflexivity. Qed.

Lemma init_session_dirty (d : gmap string value) (i : string)
    (p : option bool) (a : option string) :
  _dirty (init_session d i p a) = false.
Proof. reflexivity. Qed.

(** The entries of a session built without an initial mapping: the flag
    [_permanent] when asked for, the address [_addr] when there is one. *)
Lemma init_session_empty_permanent (i : string) (p : bool) (a : option string) :
  data (init_session ∅ i (Some p) a) !! "_permanent"
  = if p then Some (VBool true) else None.
Proof.
  unfold init_session, set_permanent, set_addr, setitem.
  destruct p, a as [a|]; simpl; try destruct (String.eqb a ""); simpl;
    repeat (rewrite lookup_insert_ne by discriminate);
    try rewrite lookup_insert_eq; try rewrite lookup_empty; reflexivity.
Qed.

Lemma init_session_empty_addr (i : string) (p : bool) (a : option string) :
  data (init_session ∅ i (Some p) a) !! "_addr"
  = if str_truthy a then VStr <$> a else None.
Proof.
  unfold init_session, set_permanent, set_addr, setitem.
  destruct p, a as [a|]; simpl; try destruct (String.eqb a ""); simpl;
    try rewrite lookup_insert_eq;
    repeat (rewrite lookup_insert_ne by discriminate);
    try rewrite lookup_empty; reflexivity.
Qed.

Lemma init_session_empty_keys (i : string) (p : bool) (a : option string)
    (key : string) :
  is_Some (data (init_session ∅ i (Some p) a) !! key) ->
  key = "_permanent" \/ key = "_addr".
Proof.
  unfold init_session, set_permanent, set_addr, setitem.
  destruct (decide (key = "_permanent")) as [|Hp]; [now left|].
  destruct (decide (key = "_addr")) as [|Ha]; [now right|].
  intros [v Hv]. exfalso.
  destruct p, a as [a|]; simpl in Hv;
    try destruct (String.eqb a ""); simpl in Hv;
    repeat (rewrite lookup_insert_ne in Hv by congruence);
    rewrite lookup_empty in Hv; discriminate.
Qed.

(** A bound address makes the session's mapping non-empty. *)
Lemma init_session_addr_nonempty (d : gmap string value) (i : string)
    (p : option bool) (a : string) :
  String.eqb a "" = false ->
  data (init_session d i p (Some a)) <> ∅.
Proof.
  intros Ha E. apply (f_equal (fun m => m !! "_addr")) in E.
  rewrite lookup_empty in E.
  unfold init_session, set_permanent, set_addr, setitem in E.
  simpl in E. rewrite Ha in E. simpl in E.
  destruct p as [[|]|]; simpl in E; rewrite lookup_insert_eq in E;
    discriminate.
Qed.

(** The constructor on a stored mapping: it refuses the key [self] and
    keeps every other mapping as it is. *)
Lemma rebuilt_mapping (d : gmap string value) (i : string) :
  rebuilt (DMapping d) i
  = match d !! "self" with
    | Some _ => Raise TypeError
    | None => Ok (Some (rehydrated d i))
    end.
Proof.
  unfold rebuilt, ServerSideSession, initial_mapping.
  now destruct (d !! "self").
Qed.

(** The session of a rejected request has no entry [self]. *)
Lemma new_session_no_self (self : SessionInterface) (request : Request)
    (i : string) :
  data (new_session self request i) !! "self" = None.
Proof.
  destruct (data (new_session self request i) !! "self") as [v|] eqn:E;
    [|reflexivity].
  destruct (init_session_empty_keys i (permanent self)
              (early_addr self request) "self") as [H|H];
    [unfold new_session in E; rewrite E; eauto | discriminate | discriminate].
Qed.

(** ** Running the engine *)

Section EngineFacts.
Variable verify : string -> string -> string -> string -> bool.
Variable loads : string -> option decoded.


(** Neither logging nor a backend call touches the random source. *)
Lemma next_sid_logged (msg : string) (w : World) :
  next_sid (logged msg w) = next_sid w.
Proof. reflexivity. Qed.

Lemma next_sid_client (c : backend_call) (st : gmap string string)
    (w : World) :
  next_sid (client c st w) = next_sid w.
Proof. reflexivity. Qed.

(** A new_session session: one draw, nothing else. *)
Lemma fresh_session_run (self : SessionInterface) (request : Request)
    (w : World) :
  fresh_session (options_of self request) w
  = (Ok (Some (new_session self request (next_sid w))), drew w).
Proof. reflexivity. Qed.

(** With a cookie whose identifier the engine reads as [raw], all that is
    left is the lookup of [raw]. *)
Lemma open_session_identified (self : SessionInterface) (app : Quart)
    (request : Request) (c raw : string) (w : World) :
  has_cookie app request c ->
  identifier_of verify self app c = Some raw ->
  open_session verify loads self app request w
  = open_stored loads self app request (options_of self request) raw w.
Proof.
  intros [Hc Hne] Hid. unfold open_session.
  rewrite Hc, Hne. unfold identifier_of in Hid.
  destruct (use_signer self).
  - destruct (_get_signer app) as [signer|]; [|discriminate].
    now rewrite Hid.
  - now injection Hid as <-.
Qed.

(** A lookup that raises ends the call there. *)
Lemma open_stored_raises (self : SessionInterface) (app : Quart)
    (request : Request) (options : Options) (raw : string) (e : exn)
    (w : World) :
  backend_lookup (kind self) (store w) (key_prefix self +:+ raw) = Raise e ->
  open_stored loads self app request options raw w
  = (Raise e, client (CallGet (key_prefix self +:+ raw)) (store w) w).
Proof.
  intros H. unfold open_stored, mbind, M_bind, _backend_get.
  now rewrite H.
Qed.

Lemma open_stored_absent (self : SessionInterface) (app : Quart)
    (request : Request) (raw : string) (w : World) :
  backend_lookup (kind self) (store w) (key_prefix self +:+ raw) = Ok None ->
  open_stored loads self app request (options_of self request) raw w
  = (Ok (Some (new_session self request (next_sid w))),
     drew (client (CallGet (key_prefix self +:+ raw)) (store w) w)).
Proof.
  intros H. unfold open_stored, mbind, M_bind,
    _backend_get.
  now rewrite H.
Qed.

Lemma open_stored_undecodable (self : SessionInterface) (app : Quart)
    (request : Request) (raw val : string) (w : World) :
  backend_lookup (kind self) (store w) (key_prefix self +:+ raw)
  = Ok (Some val) ->
  loads val = None ->
  open_stored loads self app request (options_of self request) raw w
  = (Ok (Some (new_session self request (next_sid w))),
     drew (logged ("Failed to deserialize session data for sid: " +:+ raw
                   +:+ ". Generating new sid.")
             (client (CallGet (key_prefix self +:+ raw)) (store w) w))).
Proof.
  intros H Hl. unfold open_stored, mbind, M_bind,
    _backend_get.
  now rewrite H, Hl.
Qed.

Lemma open_stored_mismatch (self : SessionInterface) (app : Quart)
    (request : Request) (raw val : string) (d : gmap string value)
    (w : World) :
  backend_lookup (kind self) (store w) (key_prefix self +:+ raw)
  = Ok (Some val) ->
  loads val = Some (DMapping d) ->
  hijack_passes self request d = false ->
  open_stored loads self app request (options_of self request) raw w
  = (Ok (Some (new_session self request (next_sid w))),
     drew (client (CallDelete (key_prefix self +:+ raw))
             (delete (key_prefix self +:+ raw) (store w))
             (client (CallGet (key_prefix self +:+ raw)) (store w) w))).
Proof.
  intros H Hl Hp. unfold open_stored, mbind, M_bind,
    _backend_get.
  rewrite H, Hl. unfold hijack_passes, addr_matches in Hp.
  destruct (SESSION_HIJACK_PROTECTION (_config self)); [|discriminate].
  simpl in Hp. apply negb_false_iff in Hp.
  unfold lift, addr_differs. now rewrite Hp.
Qed.

Lemma open_stored_passes (self : SessionInterface) (app : Quart)
    (request : Request) (options : Options) (raw val : string)
    (d : gmap string value) (w : World) :
  backend_lookup (kind self) (store w) (key_prefix self +:+ raw)
  = Ok (Some val) ->
  loads val = Some (DMapping d) ->
  hijack_passes self request d = true ->
  open_stored loads self app request options raw w
  = (rebuilt (DMapping d) raw,
     client (CallGet (key_prefix self +:+ raw)) (store w) w).
Proof.
  intros H Hl Hp. unfold open_stored, mbind, M_bind,
    _backend_get.
  rewrite H, Hl. unfold hijack_passes, addr_matches in Hp.
  unfold rebuilt, lift.
  destruct (SESSION_HIJACK_PROTECTION (_config self)).
  - simpl in Hp. apply negb_true_iff in Hp.
    unfold addr_differs. rewrite Hp.
    now destruct (ServerSideSession _ _ _ _).
  - now destruct (ServerSideSession _ _ _ _).
Qed.
End EngineFacts.

(** ** Rejected requests *)

Section Rejection.
Variable verify : string -> string -> string -> string -> bool.
Variable loads : string -> option decoded.

(** What [open_session] does with a request it turns down. *)
Lemma rejects_run (self : SessionInterface) (app : Quart)
    (request : Request) (w : World) (r : rejection) (old : option string) :
  rejects verify loads self app request w r old ->
  exists w',
    open_session verify loads self app request w
    = (Ok (Some (new_session self request (next_sid w))), w')
    /\ drawn w' = S (drawn w)
    /\ (r = BadSignature -> calls w' = calls w /\ store w' = store w).
Proof.
  intros H.
  destruct H as [Hmiss | c signer [Hc Hne] Hsign Hsigner Hbad
                | c raw Hc Hid Habs | c raw val Hc Hid Hval Hdec
                | c raw val d Hc Hid Hval Hdec Hhij].
  - exists (drew w). repeat split; try discriminate.
    unfold open_session.
    destruct (cookies request !! session_cookie_name app) as [c|];
      [|apply fresh_session_run].
    simpl in Hmiss. apply negb_false_iff in Hmiss. rewrite Hmiss.
    apply fresh_session_run.
  - exists (drew (logged ("Bad signature for sid: " +:+ c +:+ ".") w)).
    repeat split.
    unfold open_session. now rewrite Hc, Hne, Hsign, Hsigner, Hbad.
  - eexists. rewrite (open_session_identified _ _ _ _ _ _ _ _ Hc Hid).
    rewrite (open_stored_absent _ _ _ _ _ _ Habs).
    repeat split; discriminate.
  - eexists. rewrite (open_session_identified _ _ _ _ _ _ _ _ Hc Hid).
    rewrite (open_stored_undecodable _ _ _ _ _ _ _ Hval Hdec).
    repeat split; discriminate.
  - eexists. rewrite (open_session_identified _ _ _ _ _ _ _ _ Hc Hid).
    rewrite (open_stored_mismatch _ _ _ _ _ _ _ _ Hval Hdec Hhij).
    repeat split; discriminate.
Qed.

(** The entries of the session a rejected request gets. *)
Lemma fresh_entries (self : SessionInterface) (request : Request)
    (i : string) :
  let s := new_session self request i in
  sid s = i
  /\ data s !! "_permanent"
     = (if permanent self then Some (VBool true) else None)
  /\ data s !! "_addr"
     = (if str_truthy (early_addr self request)
        then VStr <$> early_addr self request else None)
  /\ (forall key, is_Some (data s !! key) ->
                  key = "_permanent" \/ key = "_addr").
Proof.
  unfold new_session. repeat split.
  - apply init_session_empty_permanent.
  - apply init_session_empty_addr.
  - apply init_session_empty_keys.
Qed.

(** C1, amended.  Whichever way a request is turned down — no cookie, a
    bad signature, no backend entry, a payload that does not decode, a
    bound address that differs — [open_session] returns, without raising,
    a new session under the identifier drawn next.  That identifier is a
    text of 36 characters without separator, whatever the request, so it
    differs from every rejected identifier that is not such a text; for one
    that is, nothing but the random source keeps the two apart.  The
    mapping of the new session is not empty in general: it holds the entry
    [_permanent] when the interface's [permanent] flag is set and the entry
    [_addr] when an address was computed, and nothing else.  After a bad
    signature the backend has not been called. *)
Theorem open_session_rejects (self : SessionInterface) (app : Quart)
    (request : Request) (w : World) (r : rejection) (old : option string) :
  rejects verify loads self app request w r old ->
  let s := new_session self request (next_sid w) in
  exists w',
    open_session verify loads self app request w = (Ok (Some s), w')
    /\ sid s = next_sid w
    /\ String.length (sid s) = 36%nat
    /\ (forall o, old = Some o ->
          String.length o <> 36%nat \/ itsdangerous.has_sep o = true ->
          sid s <> o)
    /\ data s !! "_permanent"
       = (if permanent self then Some (VBool true) else None)
    /\ data s !! "_addr"
       = (if str_truthy (early_addr self request)
          then VStr <$> early_addr self request else None)
    /\ (forall key, is_Some (data s !! key) ->
                    key = "_permanent" \/ key = "_addr")
    /\ drawn w' = S (drawn w)
    /\ (r = BadSignature -> calls w' = calls w /\ store w' = store w).
Proof.
  intros H s.
  destruct (rejects_run _ _ _ _ _ _ H) as (w' & Hrun & Hdrawn & Hbad).
  destruct (fresh_entries self request (next_sid w))
    as (Hsid & Hperm & Haddr & Hkeys).
  exists w'.
  split; [exact Hrun|]. split; [exact Hsid|].
  split; [subst s; rewrite Hsid; apply length_str|].
  split.
  { intros o _ [Hlen | Hsep] E.
    - apply Hlen. rewrite <- E. subst s. rewrite Hsid. apply length_str.
    - rewrite <- E in Hsep. subst s. rewrite Hsid in Hsep.
      unfold next_sid in Hsep. rewrite has_sep_str in Hsep. discriminate. }
  split; [exact Hperm|]. split; [exact Haddr|]. split; [exact Hkeys|].
  split; [exact Hdrawn | exact Hbad].
Qed.
End Rejection.


(** A request whose cookie carries a signature the signer does not accept:
    a new session, and no call on the backend. *)
Lemma open_session_rejects_witness :
  let self := Sample.interface Redis true true
                (Sample.config true false false) in
  let app := Sample.app (Some "k") 31 in
  let request := Sample.request (Some "abc-123.0000") "10.0.0.1" in
  let w := Sample.world ∅ in
  rejects Sample.verify Sample.loads self app request w BadSignature
    (Some "abc-123.0000")
  /\ exists w',
       open_session Sample.verify Sample.loads self app request w
       = (Ok (Some (new_session self request (next_sid w))), w')
       /\ calls w' = calls w
       /\ sid (new_session self request (next_sid w)) <> "abc-123.0000".
Proof.
  intros self app request w.
  assert (H : rejects Sample.verify Sample.loads self app request w
                BadSignature (Some "abc-123.0000")).
  { apply (rejects_signature _ _ _ _ _ _ "abc-123.0000"
             {| itsdangerous.signer_secret := "k";
                itsdangerous.signer_salt := "quart-session" |}).
    - split; reflexivity.
    - reflexivity.
    - reflexivity.
    - vm_compute. reflexivity. }
  split; [exact H|].
  destruct (open_session_rejects _ _ _ _ _ _ _ _ H)
    as (w' & Hrun & _ & _ & Hne & _ & _ & _ & _ & Hbad).
  exists w'. split; [exact Hrun|]. split; [now apply Hbad|].
  apply (Hne "abc-123.0000" eq_refl). left. vm_compute. discriminate.
Defined.

(** C1 as stated fails twice.  With hijack protection on, the session
    handed to a request without a cookie holds the entry [_addr], so its
    mapping is not empty.  And a request that presents, for a key the
    backend does not hold, the very identifier the generator yields next is
    handed a session under that same identifier: nothing in
    [open_session] compares the two. *)
Lemma open_session_fresh_not_empty :
  let self := Sample.interface Redis false false
                (Sample.config true false false) in
  let app := Sample.app None 31 in
  let request := Sample.request None "10.0.0.1" in
  let presented := "00000000-0000-4000-ab54-a98ceb1f0ad2"%string in
  let request' := Sample.request (Some presented) "10.0.0.1" in
  let w := Sample.world ∅ in
  (rejects Sample.verify Sample.loads self app request w MissingCookie None
   /\ exists s,
        fst (open_session Sample.verify Sample.loads self app request w)
        = Ok (Some s)
        /\ data s !! "_addr" = Some (VStr "10.0.0.1")
        /\ data s <> ∅)
  /\ (rejects Sample.verify Sample.loads self app request' w AbsentKey
        (Some presented)
      /\ exists s,
           fst (open_session Sample.verify Sample.loads self app request' w)
           = Ok (Some s)
           /\ sid s = presented).
Proof.
  intros self app request presented request' w. split; split.
  - apply rejects_missing. reflexivity.
  - exists (new_session self request (next_sid w)).
    split; [vm_compute; reflexivity|]. split.
    + vm_compute. reflexivity.
    + apply init_session_addr_nonempty. reflexivity.
  - apply (rejects_absent _ _ _ _ _ _ presented presented).
    + split; vm_compute; reflexivity.
    + reflexivity.
    + vm_compute. reflexivity.
  - exists (new_session self request' (next_sid w)).
    split; vm_compute; reflexivity.
Qed.

(** ** Stored sessions *)

Section Stored.
Variable verify : string -> string -> string -> string -> bool.
Variable loads : string -> option decoded.

(** A stored mapping without the entry [_addr] matches any address. *)
Lemma addr_matches_unbound (d : gmap string value) (addr : string) :
  d !! "_addr" = None -> addr_matches d addr = true.
Proof.
  intros H. unfold addr_matches. rewrite H. simpl.
  now rewrite String.eqb_refl.
Qed.

(** A stored string matches exactly the equal address. *)
Lemma addr_matches_bound (d : gmap string value) (a addr : string) :
  d !! "_addr" = Some (VStr a) ->
  addr_matches d addr = String.eqb a addr.
Proof.
  intros H. unfold addr_matches. rewrite H. simpl. apply negb_involutive.
Qed.

(** A stored mapping that gets through the hijack check is handed to the
    constructor, with the identifier and nothing else. *)
Lemma open_session_rebuilds (self : SessionInterface) (app : Quart)
    (request : Request) (w : World) (c raw val : string)
    (d : gmap string value) :
  has_cookie app request c ->
  identifier_of verify self app c = Some raw ->
  backend_lookup (kind self) (store w) (key_prefix self +:+ raw)
  = Ok (Some val) ->
  loads val = Some (DMapping d) ->
  hijack_passes self request d = true ->
  open_session verify loads self app request w
  = (rebuilt (DMapping d) raw,
     client (CallGet (key_prefix self +:+ raw)) (store w) w).
Proof.
  intros Hc Hid Hval Hdec Hpass.
  rewrite (open_session_identified _ _ _ _ _ _ _ _ Hc Hid).
  now apply (open_stored_passes _ _ _ _ _ _ val).
Qed.

(** Unless it holds the key [self], it comes back as a session. *)
Lemma open_session_passes (self : SessionInterface) (app : Quart)
    (request : Request) (w : World) (c raw val : string)
    (d : gmap string value) :
  has_cookie app request c ->
  identifier_of verify self app c = Some raw ->
  backend_lookup (kind self) (store w) (key_prefix self +:+ raw)
  = Ok (Some val) ->
  loads val = Some (DMapping d) ->
  hijack_passes self request d = true ->
  d !! "self" = None ->
  open_session verify loads self app request w
  = (Ok (Some (rehydrated d raw)),
     client (CallGet (key_prefix self +:+ raw)) (store w) w).
Proof.
  intros Hc Hid Hval Hdec Hpass Hself.
  rewrite (open_session_rebuilds _ _ _ _ _ _ _ _ Hc Hid Hval Hdec Hpass).
  now rewrite rebuilt_mapping, Hself.
Qed.

(** C3, amended.  With hijack protection on, a stored mapping is compared
    with the address recomputed for the request: the forwarded-for header
    (falling back on the remote address) when the reverse-proxy flag is set,
    the remote address otherwise.  A mapping without a stored address, or
    with the same one, goes on to the constructor under its identifier,
    which hands it back as it is (and refuses the key [self]).  On any
    other stored value the backend entry of the old identifier is deleted
    and a new session under the identifier drawn next is returned; that
    session holds none of the stored entries, but it is not empty in
    general: it carries the address computed at the start of the call under
    [_addr], and [_permanent] if the interface sets it. *)
Theorem open_session_hijack_check (self : SessionInterface) (app : Quart)
    (request : Request) (w : World) (c raw val : string)
    (d : gmap string value) :
  SESSION_HIJACK_PROTECTION (_config self) = true ->
  has_cookie app request c ->
  identifier_of verify self app c = Some raw ->
  backend_lookup (kind self) (store w) (key_prefix self +:+ raw)
  = Ok (Some val) ->
  loads val = Some (DMapping d) ->
  let addr :=
    if SESSION_HIJACK_REVERSE_PROXY (_config self)
    then default (remote_addr request) (headers request !! "X-Forwarded-For")
    else remote_addr request in
  let key := key_prefix self +:+ raw in
  let looked := client (CallGet key) (store w) w in
  let passed :=
    open_session verify loads self app request w
    = (match d !! "self" with
       | None => Ok (Some {| data := d; sid := raw; modified := false;
                             _dirty := false |})
       | Some _ => Raise TypeError
       end, looked) in
  match d !! "_addr" with
  | None => passed
  | Some stored =>
      if py_ne_str stored addr then
        exists s w',
          open_session verify loads self app request w = (Ok (Some s), w')
          /\ w' = drew (client (CallDelete key) (delete key (store w)) looked)
          /\ store w' !! key = None
          /\ sid s = next_sid w
          /\ data s !! "_addr"
             = (let a := default (remote_addr request)
                           (headers request !! "X-Forwarded-For") in
                if String.eqb a "" then None else Some (VStr a))
          /\ data s !! "_permanent"
             = (if permanent self then Some (VBool true) else None)
          /\ (forall k, is_Some (data s !! k) ->
                        k = "_permanent" \/ k = "_addr")
      else passed
  end.
Proof.
  intros Hon Hc Hid Hval Hdec addr key looked passed.
  assert (Haddr : addr = check_addr self request) by reflexivity.
  assert (Hpassed : hijack_passes self request d = true -> passed).
  { intros Hp. subst passed looked key.
    rewrite (open_session_rebuilds _ _ _ _ _ _ _ _ Hc Hid Hval Hdec Hp).
    rewrite rebuilt_mapping. now destruct (d !! "self"). }
  destruct (d !! "_addr") as [stored|] eqn:Hd.
  - destruct (py_ne_str stored addr) eqn:Hne.
    + assert (Hp : hijack_passes self request d = false).
      { unfold hijack_passes, addr_matches.
        rewrite Hon, Hd, <- Haddr. simpl. now rewrite Hne. }
      exists (new_session self request (next_sid w)).
      eexists. split.
      { rewrite (open_session_identified _ _ _ _ _ _ _ _ Hc Hid).
        apply (open_stored_mismatch _ _ _ _ _ _ _ _ Hval Hdec Hp). }
      destruct (fresh_entries self request (next_sid w))
        as (Hsid & Hperm & Ha & Hkeys).
      split; [reflexivity|]. split; [simpl; apply lookup_delete_eq|].
      split; [exact Hsid|]. split.
      { rewrite Ha. unfold early_addr, headers_get. rewrite Hon. simpl.
        now destruct (String.eqb _ ""). }
      split; [exact Hperm | exact Hkeys].
    + apply Hpassed. unfold hijack_passes, addr_matches.
      rewrite Hon, Hd, <- Haddr. simpl. now rewrite Hne.
  - apply Hpassed. unfold hijack_passes. rewrite Hon. simpl.
    now apply addr_matches_unbound.
Qed.

(** C10.  On the path that hands a stored mapping back, the constructor is
    called with the decoded mapping and the unsigned identifier alone: the
    outcome of [open_session] is the outcome of that call.  The session it
    gives, which it does for every mapping without the key [self], has the
    stored entries and counts as unmodified, whatever the interface's
    [permanent] flag and the address computed for the request.  Every
    request that is turned down instead gets a session built with both. *)
Theorem open_session_rehydrates_plainly (self : SessionInterface)
    (app : Quart) (request : Request) (w : World) (c raw val : string)
    (d : gmap string value) :
  has_cookie app request c ->
  identifier_of verify self app c = Some raw ->
  backend_lookup (kind self) (store w) (key_prefix self +:+ raw)
  = Ok (Some val) ->
  loads val = Some (DMapping d) ->
  hijack_passes self request d = true ->
  fst (open_session verify loads self app request w)
  = match ServerSideSession (Some (DMapping d)) raw None None with
    | Ok s => Ok (Some s)
    | Raise e => Raise e
    end
  /\ (d !! "self" = None ->
      exists s,
        fst (open_session verify loads self app request w) = Ok (Some s))
  /\ (forall s,
        fst (open_session verify loads self app request w) = Ok (Some s) ->
        ServerSideSession (Some (DMapping d)) raw None None = Ok s
        /\ data s = d
        /\ sid s = raw
        /\ modified s = false
        /\ data s !! "_permanent" = d !! "_permanent"
        /\ data s !! "_addr" = d !! "_addr")
  /\ (forall request' w' r old,
        rejects verify loads self app request' w' r old ->
        exists s,
          fst (open_session verify loads self app request' w') = Ok (Some s)
          /\ ServerSideSession None (next_sid w') (Some (permanent self))
               (early_addr self request') = Ok s
          /\ data s !! "_permanent"
             = (if permanent self then Some (VBool true) else None)
          /\ data s !! "_addr"
             = (if str_truthy (early_addr self request')
                then VStr <$> early_addr self request' else None)).
Proof.
  intros Hc Hid Hval Hdec Hpass.
  rewrite (open_session_rebuilds _ _ _ _ _ _ _ _ Hc Hid Hval Hdec Hpass).
  split; [reflexivity|]. split; [|split].
  - intros Hself. exists (rehydrated d raw).
    now rewrite rebuilt_mapping, Hself.
  - intros s Hs. simpl in Hs. rewrite rebuilt_mapping in Hs.
    unfold ServerSideSession, initial_mapping.
    destruct (d !! "self"); [discriminate|].
    injection Hs as <-. repeat split; reflexivity.
  - intros request' w' r old Hrej.
    destruct (rejects_run _ _ _ _ _ _ _ _ Hrej) as (w'' & Hrun & _).
    destruct (fresh_entries self request' (next_sid w'))
      as (_ & Hperm & Haddr & _).
    exists (new_session self request' (next_sid w')). rewrite Hrun.
    repeat split; assumption.
Qed.
End Stored.

(** ** Identifiers of returned sessions *)

Section Identifiers.
Variable digest : string -> string -> string -> string.
Variable verify : string -> string -> string -> string -> bool.
Variable loads : string -> option decoded.

(** Past the lookup, a returned session carries the identifier drawn next
    or the one looked up. *)
Lemma open_stored_sid (self : SessionInterface) (app : Quart)
    (request : Request) (options : Options) (raw : string) (w w' : World)
    (s : Session) :
  open_stored loads self app request options raw w = (Ok (Some s), w') ->
  sid s = next_sid w \/ sid s = raw.
Proof.
  unfold open_stored, mbind, M_bind, _backend_get, fresh_session, warning,
    _backend_delete, _generate_sid, lift, mret, M_ret, ServerSideSession.
  destruct (backend_lookup _ _ _) as [[val|]|e]; simpl; [| |discriminate].
  - destruct (loads val) as [[d|v]|]; simpl.
    + unfold initial_mapping.
      destruct (SESSION_HIJACK_PROTECTION _); simpl.
      * destruct (py_ne_str _ _); simpl;
          [intros H; injection H as <- <-; now left|].
        destruct (d !! "self"); simpl; [discriminate|].
        intros H; injection H as <- <-. now right.
      * destruct (d !! "self"); simpl; [discriminate|].
        intros H; injection H as <- <-. now right.
    + destruct (SESSION_HIJACK_PROTECTION _); simpl; [discriminate|].
      destruct (truthy v); simpl; [discriminate|].
      intros H; injection H as <- <-. now right.
    + intros H; injection H as <- <-. now left.
  - intros H; injection H as <- <-. now left.
Qed.

(** A returned session carries the identifier drawn next, or the one read
    off the request's cookie. *)
Lemma open_session_sid (self : SessionInterface) (app : Quart)
    (request : Request) (w w' : World) (s : Session) :
  open_session verify loads self app request w = (Ok (Some s), w') ->
  sid s = next_sid w
  \/ exists c, has_cookie app request c
               /\ identifier_of verify self app c = Some (sid s).
Proof.
  unfold open_session, identifier_of, has_cookie.
  destruct (cookies request !! session_cookie_name app) as [c|];
    [|intros H; injection H as <- <-; now left].
  destruct (String.eqb c "") eqn:Ec;
    [intros H; injection H as <- <-; now left|].
  destruct (use_signer self).
  - destruct (_get_signer app) as [signer|]; [|discriminate].
    destruct (itsdangerous.unsign verify signer c) as [raw|] eqn:Eu.
    + intros H. destruct (open_stored_sid _ _ _ _ _ _ _ _ H) as [Hs|Hs];
        [now left|].
      right. exists c. rewrite Hs. now repeat split.
    + intros H; injection H as <- <-. now left.
  - intros H. destruct (open_stored_sid _ _ _ _ _ _ _ _ H) as [Hs|Hs];
      [now left|].
    right. exists c. rewrite Hs. now repeat split.
Qed.

(** With signing on, the cookie made of the separator and the signature of
    the empty identifier is accepted, and what is stored under the bare key
    prefix is handed back under the empty identifier. *)
Lemma open_session_signed_empty (self : SessionInterface) (app : Quart)
    (request : Request) (w : World) (signer : itsdangerous.Signer)
    (val : string) (d : gmap string value) :
  use_signer self = true ->
  _get_signer app = Some signer ->
  itsdangerous.sound digest verify signer "" ->
  cookies request !! session_cookie_name app
  = Some ("." +:+ itsdangerous.get_signature digest signer "") ->
  backend_lookup (kind self) (store w) (key_prefix self +:+ "")
  = Ok (Some val) ->
  loads val = Some (DMapping d) ->
  hijack_passes self request d = true ->
  d !! "self" = None ->
  open_session verify loads self app request w
  = (Ok (Some (rehydrated d "")),
     client (CallGet (key_prefix self +:+ "")) (store w) w).
Proof.
  intros Hu Hg Hsound Hc Hval Hdec Hpass Hself.
  apply (open_session_passes verify loads self app request w
           ("." +:+ itsdangerous.get_signature digest signer "") "" val d);
    try assumption.
  - split; [exact Hc | reflexivity].
  - unfold identifier_of. rewrite Hu, Hg. now apply (unsign_empty digest).
Qed.

(** C9, amended.  Every session [open_session] returns has a non-empty
    identifier, provided that with signing on the identifier the signer
    strips the cookie to is not empty: a branch either assigns the
    identifier drawn next, a text of 36 characters, or keeps the one read
    off the cookie, which without signing is the non-empty cookie itself. *)
Theorem open_session_sid_nonempty (self : SessionInterface) (app : Quart)
    (request : Request) (w w' : World) (s : Session) :
  (use_signer self = true ->
   forall c, has_cookie app request c ->
             identifier_of verify self app c <> Some "") ->
  open_session verify loads self app request w = (Ok (Some s), w') ->
  sid s <> "".
Proof.
  intros Hsigned Hrun.
  destruct (open_session_sid _ _ _ _ _ _ Hrun) as [Hs | (c & Hc & Hid)].
  - rewrite Hs. apply next_sid_nonempty.
  - intros E. rewrite E in Hid.
    destruct (use_signer self) eqn:Hu.
    + now apply (Hsigned eq_refl c Hc).
    + unfold identifier_of in Hid. rewrite Hu in Hid.
      injection Hid as ->. destruct Hc as [_ Hne]. discriminate.
Qed.

(** C7, amended.  With signing on and no secret key, a request that carries
    a non-empty session cookie gets no session: [open_session] logs a
    warning and returns [None], without a draw and without a call on the
    backend, where a bad signature gets a new session.  A request without a
    cookie is served before the signer is asked for, and gets a new session
    like any other such request. *)
Theorem open_session_without_secret (self : SessionInterface) (app : Quart)
    (request : Request) (w : World) :
  use_signer self = true ->
  str_truthy (secret_key app) = false ->
  (forall c, has_cookie app request c ->
             open_session verify loads self app request w
             = (Ok None, logged "Failed to obtain a valid signer." w))
  /\ (str_truthy (cookies request !! session_cookie_name app) = false ->
      open_session verify loads self app request w
      = (Ok (Some (new_session self request (next_sid w))), drew w)).
Proof.
  intros Hu Hk. split.
  - intros c [Hc Hne]. unfold open_session, _get_signer.
    now rewrite Hc, Hne, Hu, Hk.
  - intros Hmiss. unfold open_session.
    destruct (cookies request !! session_cookie_name app) as [c|];
      [|reflexivity].
    simpl in Hmiss. apply negb_false_iff in Hmiss. now rewrite Hmiss.
Qed.
End Identifiers.

(** ** The engine on the sample deployment: opening *)

(** A session bound to 10.0.0.1 and presented from 10.0.0.2: the entry is
    deleted and a new identifier issued. *)
Lemma open_session_hijack_check_witness :
  let self := Sample.interface Redis false false
                (Sample.config true false false) in
  let app := Sample.app None 31 in
  let request := Sample.request (Some "abc-123") "10.0.0.2" in
  let w := Sample.world (<["session:abc-123" := Sample.bound_payload]> ∅) in
  exists s w',
    open_session Sample.verify Sample.loads self app request w
    = (Ok (Some s), w')
    /\ store w' !! "session:abc-123" = None
    /\ sid s = next_sid w.
Proof.
  intros self app request w.
  assert (Hc : has_cookie app request "abc-123") by (split; reflexivity).
  assert (Hv : backend_lookup (kind self) (store w)
                 (key_prefix self +:+ "abc-123")
               = Ok (Some Sample.bound_payload)) by (vm_compute; reflexivity).
  pose proof (open_session_hijack_check Sample.verify Sample.loads self app
                request w "abc-123" "abc-123" Sample.bound_payload
                Sample.bound eq_refl Hc eq_refl Hv eq_refl) as H.
  destruct H as (s & w' & Hrun & _ & Hst & Hsid & _).
  exists s, w'. repeat split; assumption.
Defined.

(** C3 as stated fails: the session issued after a mismatch is not empty,
    it is bound to the address computed for the request. *)
Lemma open_session_mismatch_not_empty :
  let self := Sample.interface Redis false false
                (Sample.config true false false) in
  let app := Sample.app None 31 in
  let request := Sample.request (Some "abc-123") "10.0.0.2" in
  let w := Sample.world (<["session:abc-123" := Sample.bound_payload]> ∅) in
  Sample.loads Sample.bound_payload = Some (DMapping Sample.bound)
  /\ Sample.bound !! "_addr" = Some (VStr "10.0.0.1")
  /\ exists s,
       fst (open_session Sample.verify Sample.loads self app request w)
       = Ok (Some s)
       /\ store (snd (open_session Sample.verify Sample.loads self app
                        request w)) !! "session:abc-123" = None
       /\ data s !! "_addr" = Some (VStr "10.0.0.2")
       /\ data s <> ∅.
Proof.
  intros self app request w.
  split; [vm_compute; reflexivity|]. split; [vm_compute; reflexivity|].
  exists (new_session self request (next_sid w)).
  split; [vm_compute; reflexivity|].
  split; [vm_compute; reflexivity|].
  split; [vm_compute; reflexivity|].
  apply init_session_addr_nonempty. reflexivity.
Qed.

(** A stored session opened from any address when nothing binds it. *)
Lemma open_session_rehydrates_plainly_witness :
  let self := Sample.interface Redis false true
                (Sample.config true false false) in
  let app := Sample.app None 31 in
  let request := Sample.request (Some "abc-123") "10.0.0.2" in
  let w := Sample.world (<["session:abc-123" := Sample.payload]> ∅) in
  exists s,
    fst (open_session Sample.verify Sample.loads self app request w)
    = Ok (Some s)
    /\ data s = Sample.saved
    /\ modified s = false.
Proof.
  intros self app request w.
  assert (Hc : has_cookie app request "abc-123") by (split; reflexivity).
  assert (Hv : backend_lookup (kind self) (store w)
                 (key_prefix self +:+ "abc-123")
               = Ok (Some Sample.payload)) by (vm_compute; reflexivity).
  assert (Hp : hijack_passes self request Sample.saved = true)
    by (vm_compute; reflexivity).
  destruct (open_session_rehydrates_plainly Sample.verify Sample.loads self
              app request w "abc-123" "abc-123" Sample.payload Sample.saved
              Hc eq_refl Hv eq_refl Hp)
    as (_ & Hex & Hall & _).
  assert (Hself : Sample.saved !! "self" = None) by (vm_compute; reflexivity).
  destruct (Hex Hself) as (s & Hrun).
  destruct (Hall s Hrun) as (_ & Hd & _ & Hm & _).
  exists s. repeat split; assumption.
Defined.

(** A correctly signed cookie: the identifier kept is the signed one. *)
Lemma open_session_sid_nonempty_witness :
  let self := Sample.interface Redis true false
                (Sample.config false false false) in
  let app := Sample.app (Some "k") 31 in
  let request := Sample.request (Some "abc-123.a403") "10.0.0.1" in
  let w := Sample.world (<["session:abc-123" := Sample.payload]> ∅) in
  open_session Sample.verify Sample.loads self app request w
  = (Ok (Some (rehydrated Sample.saved "abc-123")),
     client (CallGet "session:abc-123") (store w) w)
  /\ sid (rehydrated Sample.saved "abc-123") <> "".
Proof.
  intros self app request w.
  assert (Hc : has_cookie app request "abc-123.a403")
    by (split; vm_compute; reflexivity).
  assert (Hid : identifier_of Sample.verify self app "abc-123.a403"
                = Some "abc-123") by (vm_compute; reflexivity).
  assert (Hv : backend_lookup (kind self) (store w)
                 (key_prefix self +:+ "abc-123")
               = Ok (Some Sample.payload)) by (vm_compute; reflexivity).
  assert (Hp : hijack_passes self request Sample.saved = true)
    by reflexivity.
  assert (Hself : Sample.saved !! "self" = None) by (vm_compute; reflexivity).
  assert (Hrun : open_session Sample.verify Sample.loads self app request w
                 = (Ok (Some (rehydrated Sample.saved "abc-123")),
                    client (CallGet "session:abc-123") (store w) w))
    by exact (open_session_passes Sample.verify Sample.loads self app
                request w _ _ _ _ Hc Hid Hv eq_refl Hp Hself).
  split; [exact Hrun|].
  apply (open_session_sid_nonempty Sample.verify Sample.loads self app
           request w (client (CallGet "session:abc-123") (store w) w)
           (rehydrated Sample.saved "abc-123")); [|exact Hrun].
  intros _ c [Hc' _].
  assert (E : c = "abc-123.a403").
  { subst request. unfold Sample.request, cookies in Hc'.
    rewrite lookup_insert_eq in Hc'. now injection Hc'. }
  subst c. rewrite Hid. discriminate.
Defined.

(** C9 as stated fails: the signature of the empty identifier is accepted
    like any other, and an entry stored under the bare key prefix is then
    handed back under the empty identifier. *)
Lemma open_session_empty_sid :
  let self := Sample.interface Redis true false
                (Sample.config false false false) in
  let app := Sample.app (Some "k") 31 in
  let request := Sample.request (Some ".286a") "10.0.0.1" in
  let w := Sample.world (<["session:" := Sample.payload]> ∅) in
  has_cookie app request ".286a"
  /\ identifier_of Sample.verify self app ".286a" = Some ""
  /\ exists s,
       fst (open_session Sample.verify Sample.loads self app request w)
       = Ok (Some s)
       /\ sid s = "".
Proof.
  intros self app request w.
  split; [split; vm_compute; reflexivity|].
  split; [vm_compute; reflexivity|].
  exists (rehydrated Sample.saved "").
  split; [vm_compute; reflexivity | reflexivity].
Qed.

(** Signing on, no secret key, a cookie on the request: no session. *)
Lemma open_session_without_secret_witness :
  let self := Sample.interface Redis true false
                (Sample.config false false false) in
  let app := Sample.app None 31 in
  let request := Sample.request (Some "abc-123.a403") "10.0.0.1" in
  let w := Sample.world ∅ in
  open_session Sample.verify Sample.loads self app request w
  = (Ok None, logged "Failed to obtain a valid signer." w).
Proof.
  intros self app request w.
  apply (proj1 (open_session_without_secret Sample.verify Sample.loads self
                  app request w eq_refl eq_refl) "abc-123.a403").
  split; vm_compute; reflexivity.
Defined.

(** C7 as stated fails: with signing on and no secret key, a request without
    a cookie is handed a new session and nothing is reported. *)
Lemma open_session_without_secret_fresh :
  let self := Sample.interface Redis true false
                (Sample.config false false false) in
  let app := Sample.app None 31 in
  let request := Sample.request None "10.0.0.1" in
  let w := Sample.world ∅ in
  use_signer self = true
  /\ _get_signer app = None
  /\ exists s,
       fst (open_session Sample.verify Sample.loads self app request w)
       = Ok (Some s)
       /\ sid s = "00000000-0000-4000-ab54-a98ceb1f0ad2"
       /\ warnings (snd (open_session Sample.verify Sample.loads self app
                           request w)) = [].
Proof.
  intros self app request w.
  split; [reflexivity|]. split; [reflexivity|].
  exists (new_session self request (next_sid w)).
  split; [vm_compute; reflexivity|].
  split; vm_compute; reflexivity.
Qed.

(** ** Saving *)

Lemma time_int_nonneg (w : World) : 0 <= clock w -> 0 <= time_int w.
Proof. intros H. unfold time_int. apply Z.quot_pos; lia. Qed.

(** [total_seconds] is the lifetime in whole seconds. *)
Lemma total_seconds_whole (td : timedelta) :
  td_normal td -> total_seconds td = td_microseconds td / 1000000.
Proof.
  intros [_ Hm]. unfold total_seconds, td_microseconds.
  apply Z.div_unique with (r := microseconds td); lia.
Qed.

(** C8.  For a timeout above 2592000 seconds (30 days) the translation
    returns the timeout plus the current Unix time, a date that lies the
    requested duration after now and that Memcached reads as a date; a
    timeout of at most 2592000 seconds is returned as it is.  The world is
    left alone. *)
Theorem memcache_timeout_translation (timeout : Z) (w : World) :
  (2592000 < timeout ->
   _get_memcache_timeout timeout w = (Ok (timeout + time_int w), w)
   /\ time_int w + timeout <= timeout + time_int w
   /\ (0 <= clock w ->
       2592000 < timeout + time_int w
       /\ lifetime_of Memcached (time_int w) (timeout + time_int w) = timeout))
  /\ (timeout <= 2592000 ->
      _get_memcache_timeout timeout w = (Ok timeout, w)
      /\ lifetime_of Memcached (time_int w) timeout = timeout).
Proof.
  unfold _get_memcache_timeout, lifetime_of. split; intros H.
  - assert (E : (timeout >? 2592000) = true) by (apply Z.gtb_lt; lia).
    rewrite E. repeat split; try lia.
    + apply time_int_nonneg in H0. lia.
    + apply time_int_nonneg in H0.
      assert (E' : (timeout + time_int w >? 2592000) = true)
        by (apply Z.gtb_lt; lia).
      rewrite E'. lia.
  - assert (E : (timeout >? 2592000) = false).
    { destruct (timeout >? 2592000) eqn:E'; [|reflexivity].
      apply Z.gtb_lt in E'. lia. }
    now rewrite E.
Qed.

Section Saving.
Variable digest : string -> string -> string -> string.
Variable dumps : gmap string value -> string.

Lemma passes_early_checks_inv (self : SessionInterface) (s : Session)
    (response : Response) :
  passes_early_checks self s response = true ->
  SESSION_EXPLICIT (_config self) && negb (_dirty s) = false
  /\ negb (SESSION_STATIC_FILE (_config self)) && is_file_body response
     = false.
Proof.
  unfold passes_early_checks. intros H.
  apply andb_true_iff in H as [H1 H2].
  apply negb_true_iff in H1, H2. now split.
Qed.

(** C6.  In explicit-save mode a session that was not marked dirty is not
    saved: [save_session] returns at once, with the response and the world
    — backend, calls, log — as they were.  Assigning or deleting entries
    does not mark the session, so this holds after any such change. *)
Theorem save_session_explicit_clean (self : SessionInterface) (app : Quart)
    (s : Session) (response : Response) (w : World) :
  SESSION_EXPLICIT (_config self) = true ->
  _dirty s = false ->
  save_session digest dumps self app s response w = (Ok response, w)
  /\ (forall key v,
        save_session digest dumps self app (setitem key v s) response w
        = (Ok response, w))
  /\ (forall key,
        save_session digest dumps self app (delitem key s) response w
        = (Ok response, w)).
Proof.
  intros He Hd. unfold save_session, setitem, delitem. simpl.
  rewrite He, Hd. simpl. repeat split.
Qed.

(** What [save_session] does with a session whose mapping is empty. *)
Lemma save_session_empty_run (self : SessionInterface) (app : Quart)
    (s : Session) (response : Response) (w : World) :
  data s = ∅ ->
  save_session digest dumps self app s response w
  = if passes_early_checks self s response && modified s
    then (Ok (delete_cookie response (session_cookie_name app)
                (cookie_domain app) (cookie_path app)),
          client (CallDelete (key_prefix self +:+ sid s))
            (delete (key_prefix self +:+ sid s) (store w)) w)
    else (Ok response, w).
Proof.
  intros He. unfold save_session, passes_early_checks.
  destruct (SESSION_EXPLICIT (_config self) && negb (_dirty s));
    [reflexivity|].
  destruct (negb (SESSION_STATIC_FILE (_config self)) && is_file_body response);
    [reflexivity|].
  rewrite He, map_size_empty. simpl.
  destruct (modified s); reflexivity.
Qed.

(** C4, amended.  A session whose mapping is empty is never written to the
    backend.  If it gets past the two early returns of [save_session] —
    explicit-save mode with a session not marked dirty, and a file response
    with sessions on static files off — and its [modified] flag is set,
    the backend key is deleted and the response is told to delete the
    session cookie with the application's domain and path; if the flag is
    not set, or an early return applies, nothing is done. *)
Theorem save_session_empty (self : SessionInterface) (app : Quart)
    (s : Session) (response : Response) (w : World) :
  data s = ∅ ->
  let key := key_prefix self +:+ sid s in
  (forall o w', save_session digest dumps self app s response w = (o, w') ->
     forall k payload expiry,
       In (CallSet k payload expiry) (calls w') ->
       In (CallSet k payload expiry) (calls w))
  /\ (passes_early_checks self s response = true ->
      modified s = true ->
      save_session digest dumps self app s response w
      = (Ok (delete_cookie response (session_cookie_name app)
               (cookie_domain app) (cookie_path app)),
         client (CallDelete key) (delete key (store w)) w))
  /\ (passes_early_checks self s response = false \/ modified s = false ->
      save_session digest dumps self app s response w = (Ok response, w)).
Proof.
  intros He key. rewrite (save_session_empty_run _ _ _ _ _ He).
  repeat split.
  - intros o w' H k payload expiry Hin.
    destruct (passes_early_checks self s response && modified s);
      injection H as <- <-; [|exact Hin].
    simpl in Hin. destruct Hin as [Hin|Hin]; [discriminate | exact Hin].
  - intros Hp Hm. now rewrite Hp, Hm.
  - intros [Hp|Hm]; [now rewrite Hp|].
    rewrite Hm. now rewrite andb_false_r.
Qed.

(** The argument [expiry] the backend method passes to its client. *)
Lemma backend_set_run (self : SessionInterface) (app : Quart)
    (key payload : string) (w : World) :
  let ttl := total_seconds (permanent_session_lifetime app) in
  _backend_set self app key payload w
  = (Ok tt,
     client (CallSet key payload
               (match kind self with
                | Memcached => if ttl >? 2592000 then ttl + time_int w else ttl
                | _ => ttl
                end))
       (<[key := payload]> (store w)) w).
Proof. unfold _backend_set. destruct (kind self); reflexivity. Qed.

(** The expiry date of the cookie, when it can be computed. *)
Lemma get_expiration_time_run (app : Quart) (s : Session) (w : World) :
  expiry_representable app s w = true ->
  get_expiration_time app s w
  = (Ok (if get_permanent s
         then Some (clock w
                    + td_microseconds (permanent_session_lifetime app))
         else None), w).
Proof.
  unfold expiry_representable, get_expiration_time, datetime.add.
  destruct (get_permanent s); [|reflexivity]. simpl.
  now destruct ((datetime.min <=? _) && (_ <=? datetime.max)).
Qed.

Lemma get_expiration_time_overflow (app : Quart) (s : Session) (w : World) :
  expiry_representable app s w = false ->
  get_expiration_time app s w = (Raise OverflowError, w).
Proof.
  unfold expiry_representable, get_expiration_time, datetime.add.
  destruct (get_permanent s); [|discriminate]. simpl.
  now destruct ((datetime.min <=? _) && (_ <=? datetime.max)).
Qed.

(** What [save_session] does with a session that is not empty, once past
    the early returns: the expiry date, the write, then the cookie if there
    is an identifier to emit. *)
Lemma save_session_store_run (self : SessionInterface) (app : Quart)
    (s : Session) (response : Response) (w : World) :
  passes_early_checks self s response = true ->
  data s <> ∅ ->
  expiry_representable app s w = true ->
  let key := key_prefix self +:+ sid s in
  let ttl := total_seconds (permanent_session_lifetime app) in
  let expiry := match kind self with
                | Memcached => if ttl >? 2592000 then ttl + time_int w else ttl
                | _ => ttl
                end in
  let w' := client (CallSet key (dumps (data s)) expiry)
              (<[key := dumps (data s)]> (store w)) w in
  let expires :=
    if get_permanent s
    then Some (clock w + td_microseconds (permanent_session_lifetime app))
    else None in
  save_session digest dumps self app s response w
  = match cookie_value digest self app s with
    | Some session_id =>
        (Ok (set_cookie response (session_cookie_name app) session_id expires
               (cookie_httponly app) (cookie_domain app) (cookie_path app)
               (cookie_secure app)), w')
    | None => (Raise AttributeError, w')
    end.
Proof.
  intros Hp Hne Hrep key ttl expiry w' expires.
  destruct (passes_early_checks_inv _ _ _ Hp) as [H1 H2].
  unfold save_session. rewrite H1, H2.
  assert (Hs : Nat.eqb (size (data s)) 0 = false).
  { apply Nat.eqb_neq. intros E. now apply map_size_empty_iff in E. }
  rewrite Hs. unfold mbind, M_bind.
  rewrite (get_expiration_time_run _ _ _ Hrep).
  rewrite backend_set_run.
  unfold cookie_value.
  destruct (use_signer self); [|reflexivity].
  destruct (_get_signer app); reflexivity.
Qed.

(** When the expiry date cannot be computed the call ends there, before
    the write. *)
Lemma save_session_overflow_run (self : SessionInterface) (app : Quart)
    (s : Session) (response : Response) (w : World) :
  passes_early_checks self s response = true ->
  data s <> ∅ ->
  expiry_representable app s w = false ->
  save_session digest dumps self app s response w = (Raise OverflowError, w).
Proof.
  intros Hp Hne Hrep.
  destruct (passes_early_checks_inv _ _ _ Hp) as [H1 H2].
  unfold save_session. rewrite H1, H2.
  assert (Hs : Nat.eqb (size (data s)) 0 = false).
  { apply Nat.eqb_neq. intros E. now apply map_size_empty_iff in E. }
  rewrite Hs. unfold mbind, M_bind.
  now rewrite (get_expiration_time_overflow _ _ _ Hrep).
Qed.
End Saving.

(** ** The engine on the sample deployment: saving *)

Lemma saved_nonempty : Sample.saved <> ∅.
Proof.
  intros E. apply (f_equal (fun m => m !! "user")) in E.
  vm_compute in E. discriminate.
Qed.

(** Forty days are passed on as a date, one day as it is. *)
Lemma memcache_timeout_translation_witness :
  _get_memcache_timeout 3456000 (Sample.world ∅)
  = (Ok (3456000 + time_int (Sample.world ∅)), Sample.world ∅)
  /\ _get_memcache_timeout 86400 (Sample.world ∅)
     = (Ok 86400, Sample.world ∅).
Proof.
  split.
  - apply (proj1 (memcache_timeout_translation 3456000 (Sample.world ∅))).
    lia.
  - apply (proj2 (memcache_timeout_translation 86400 (Sample.world ∅))).
    lia.
Defined.

(** Explicit-save mode, entries assigned, [dirty] not called: nothing is
    saved. *)
Lemma save_session_explicit_clean_witness :
  let self := Sample.interface Redis false true
                (Sample.config false false true) in
  let app := Sample.app None 31 in
  let s := setitem "user" (VStr "alice") (Sample.session ∅ false false) in
  save_session Sample.digest Sample.dumps self app s Sample.response
    (Sample.world ∅)
  = (Ok Sample.response, Sample.world ∅).
Proof.
  intros self app s.
  apply (proj1 (proj2 (save_session_explicit_clean Sample.digest Sample.dumps
                         self app (Sample.session ∅ false false)
                         Sample.response (Sample.world ∅) eq_refl eq_refl))).
Defined.

(** A session emptied during the request: entry and cookie are deleted. *)
Lemma save_session_empty_witness :
  let self := Sample.interface Redis false true
                (Sample.config false false false) in
  let app := Sample.app None 31 in
  let s := Sample.session ∅ true false in
  let w := Sample.world (<["session:abc-123" := Sample.payload]> ∅) in
  save_session Sample.digest Sample.dumps self app s Sample.response w
  = (Ok (delete_cookie Sample.response "session" None "/"),
     client (CallDelete "session:abc-123")
       (delete "session:abc-123" (store w)) w).
Proof.
  intros self app s w.
  apply (proj1 (proj2 (save_session_empty Sample.digest Sample.dumps self app
                         s Sample.response w eq_refl)));
    reflexivity.
Defined.

(** C4 as stated fails: in explicit-save mode an emptied session that was
    not marked dirty stays in the backend, and no cookie is deleted. *)
Lemma save_session_empty_explicit_kept :
  let self := Sample.interface Redis false true
                (Sample.config false false true) in
  let app := Sample.app None 31 in
  let s := Sample.session ∅ true false in
  let w := Sample.world (<["session:abc-123" := Sample.payload]> ∅) in
  data s = ∅
  /\ modified s = true
  /\ fst (save_session Sample.digest Sample.dumps self app s Sample.response w)
     = Ok Sample.response
  /\ calls (snd (save_session Sample.digest Sample.dumps self app s
                   Sample.response w)) = []
  /\ store (snd (save_session Sample.digest Sample.dumps self app s
                   Sample.response w)) !! "session:abc-123"
     = Some Sample.payload.
Proof.
  intros self app s w. repeat split; vm_compute; reflexivity.
Qed.

(** C5.  The claim holds of every configuration but one: with signing on
    and no secret key, [save_session] writes the entry and then calls
    [sign] on the [None] that [_get_signer] returned, so that it raises
    [AttributeError] and no cookie is set.  [open_session] tests for that
    [None], logs a warning and returns: the test is missing here.  The
    session is one that [open_session] itself hands to a first request on
    that deployment. *)
Lemma save_session_without_secret :
  let self := Sample.interface Redis true true
                (Sample.config false false false) in
  let app := Sample.app None 31 in
  let s := Sample.session Sample.saved true false in
  let w := Sample.world ∅ in
  passes_early_checks self s Sample.response = true
  /\ data s <> ∅
  /\ fst (save_session Sample.digest Sample.dumps self app s Sample.response w)
     = Raise AttributeError
  /\ store (snd (save_session Sample.digest Sample.dumps self app s
                   Sample.response w)) !! "session:abc-123"
     = Some Sample.payload
  /\ fst (open_session Sample.verify Sample.loads self app
            (Sample.request (Some "abc-123.a403") "10.0.0.1") w) = Ok None
  /\ warnings (snd (open_session Sample.verify Sample.loads self app
                      (Sample.request (Some "abc-123.a403") "10.0.0.1") w))
     = ["Failed to obtain a valid signer."%string]
  /\ (let first := new_session self (Sample.request None "10.0.0.1")
                     (next_sid w) in
      fst (open_session Sample.verify Sample.loads self app
             (Sample.request None "10.0.0.1") w) = Ok (Some first)
      /\ fst (save_session Sample.digest Sample.dumps self app first
                Sample.response w) = Raise AttributeError).
Proof.
  intros self app s w.
  split; [reflexivity|]. split; [exact saved_nonempty|].
  split; [vm_compute; reflexivity|].
  split; [vm_compute; reflexivity|].
  split; [vm_compute; reflexivity|].
  split; [vm_compute; reflexivity|].
  split; vm_compute; reflexivity.
Qed.

(** C2.  The claim holds of every stored mapping but those with an entry
    under [self]: the application stores one, [save_session] writes it, the
    serializer decodes it to the mapping that was saved, the hijack check
    passes, and the constructor then spreads the mapping into keyword
    arguments, where [self] clashes with the instance: [open_session]
    raises [TypeError] instead of handing the session back.  The entry
    stays, so the next request of that client fares the same. *)
Lemma open_session_self_key :
  let self := Sample.interface Redis false false
                (Sample.config false false false) in
  let app := Sample.app None 31 in
  let s := Sample.session Fixtures.reserved true false in
  let request := Sample.request (Some "abc-123") "10.0.0.1" in
  let saving := save_session Sample.digest Fixtures.dumps self app s
                  Sample.response (Sample.world ∅) in
  let opening := open_session Sample.verify Fixtures.loads self app request
                   (snd saving) in
  fst saving
  = Ok (set_cookie Sample.response "session" "abc-123" None true None "/"
          false)
  /\ store (snd saving) !! "session:abc-123"
     = Some (Fixtures.dumps Fixtures.reserved)
  /\ Fixtures.loads (Fixtures.dumps Fixtures.reserved)
     = Some (DMapping Fixtures.reserved)
  /\ hijack_passes self request Fixtures.reserved = true
  /\ fst opening = Raise TypeError
  /\ store (snd opening) !! "session:abc-123"
     = Some (Fixtures.dumps Fixtures.reserved)
  /\ fst (open_session Sample.verify Fixtures.loads self app request
            (snd opening)) = Raise TypeError.
Proof.
  intros self app s request saving opening.
  split; [vm_compute; reflexivity|].
  split; [vm_compute; reflexivity|].
  split; [vm_compute; reflexivity|].
  split; [vm_compute; reflexivity|].
  split; [vm_compute; reflexivity|].
  split; vm_compute; reflexivity.
Qed.

(** * Further properties *)

(** ** What saving touches *)

Lemma append_inj_l (p a b : string) : p +:+ a = p +:+ b -> a = b.
Proof.
  induction p as [|c p IH]; simpl; intros H; [exact H|].
  injection H as H. now apply IH.
Qed.

Section SavingMore.
Variable digest : string -> string -> string -> string.
Variable dumps : gmap string value -> string.

(** The two early returns: nothing is read, written or logged. *)
Lemma save_session_skipped (self : SessionInterface) (app : Quart)
    (s : Session) (response : Response) (w : World) :
  passes_early_checks self s response = false ->
  save_session digest dumps self app s response w = (Ok response, w).
Proof.
  intros Hp. unfold save_session. unfold passes_early_checks in Hp.
  destruct (SESSION_EXPLICIT (_config self) && negb (_dirty s));
    [reflexivity|].
  destruct (negb (SESSION_STATIC_FILE (_config self))
            && is_file_body response); [reflexivity | discriminate].
Qed.

(** An empty session that was never modified: nothing to do either. *)
Lemma save_session_untouched (self : SessionInterface) (app : Quart)
    (s : Session) (response : Response) (w : World) :
  data s = ∅ -> modified s = false ->
  save_session digest dumps self app s response w = (Ok response, w).
Proof.
  intros He Hm. rewrite (save_session_empty_run _ _ _ _ _ _ _ He), Hm.
  now rewrite andb_false_r.
Qed.

(** The four things [save_session] can do to the world and the response:
    nothing; delete the entry and the cookie; stop at the expiry date;
    write the entry and then set the cookie or miss the signer. *)
Lemma save_session_cases (self : SessionInterface) (app : Quart)
    (s : Session) (response : Response) (w : World) :
  let key := key_prefix self +:+ sid s in
  let run := save_session digest dumps self app s response w in
  run = (Ok response, w)
  \/ run = (Ok (delete_cookie response (session_cookie_name app)
                  (cookie_domain app) (cookie_path app)),
            client (CallDelete key) (delete key (store w)) w)
  \/ run = (Raise OverflowError, w)
  \/ exists expiry o,
       run = (o, client (CallSet key (dumps (data s)) expiry)
                   (<[key := dumps (data s)]> (store w)) w)
       /\ (o = Raise AttributeError
           \/ exists value expires,
                o = Ok (set_cookie response (session_cookie_name app) value
                          expires (cookie_httponly app) (cookie_domain app)
                          (cookie_path app) (cookie_secure app))).
Proof.
  intros key run.
  destruct (passes_early_checks self s response) eqn:Hp.
  - destruct (decide (size (data s) = 0%nat)) as [He|Hne].
    + apply map_size_empty_iff in He. subst run.
      rewrite (save_session_empty_run _ _ _ _ _ _ _ He), Hp. simpl.
      destruct (modified s); [right; left | left]; reflexivity.
    + assert (Hd : data s <> ∅).
      { intros E. apply Hne. rewrite E. apply map_size_empty. }
      right. right. subst run.
      destruct (expiry_representable app s w) eqn:Hrep.
      * right.
        pose proof (save_session_store_run digest dumps self app s response
                      w Hp Hd Hrep) as Hrun.
        cbv zeta in Hrun. rewrite Hrun.
        destruct (cookie_value digest self app s) as [value|].
        -- eexists _, _. split; [reflexivity|]. right.
           eexists _, _. reflexivity.
        -- eexists _, _. split; [reflexivity|]. now left.
      * left. now apply save_session_overflow_run.
  - left. subst run. now apply save_session_skipped.
Qed.

(** X3.  Saving a session touches the entry of that session only: every
    other key of the store reads as before, whatever the outcome; in
    particular the entry of a session with another identifier, since keys
    are the prefix followed by the identifier. *)
Theorem save_session_frame (self : SessionInterface) (app : Quart)
    (s : Session) (response : Response) (w : World) :
  let w' := snd (save_session digest dumps self app s response w) in
  (forall k, k <> key_prefix self +:+ sid s -> store w' !! k = store w !! k)
  /\ (forall other, other <> sid s ->
        store w' !! (key_prefix self +:+ other)
        = store w !! (key_prefix self +:+ other)).
Proof.
  intros w'.
  assert (H : forall k, k <> key_prefix self +:+ sid s ->
                        store w' !! k = store w !! k).
  { intros k Hk. subst w'.
    destruct (save_session_cases self app s response w)
      as [E | [E | [E | (expiry & o & E & _)]]]; rewrite E; simpl.
    - reflexivity.
    - now rewrite lookup_delete_ne by congruence.
    - reflexivity.
    - now rewrite lookup_insert_ne by congruence. }
  split; [exact H|].
  intros other Hne. apply H. intros E. apply Hne.
  now apply append_inj_l in E.
Qed.

(** X4.  One call of [save_session] makes at most one call on the backend,
    never a lookup, and at most one call on the response; it logs nothing,
    draws no identifier and leaves the clock and the kind of the response
    body alone. *)
Theorem save_session_bounds (self : SessionInterface) (app : Quart)
    (s : Session) (response : Response) (w : World) :
  let w' := snd (save_session digest dumps self app s response w) in
  (calls w' = calls w \/ exists c, calls w' = c :: calls w
                                   /\ forall k, c <> CallGet k)
  /\ warnings w' = warnings w
  /\ drawn w' = drawn w
  /\ clock w' = clock w
  /\ forall response',
       fst (save_session digest dumps self app s response w) = Ok response' ->
       is_file_body response' = is_file_body response
       /\ (cookie_ops response' = cookie_ops response
           \/ exists op, cookie_ops response' = op :: cookie_ops response).
Proof.
  intros w'. subst w'.
  destruct (save_session_cases self app s response w)
    as [E | [E | [E | (expiry & o & E & Ho)]]]; rewrite E; simpl;
    (split; [|split; [reflexivity|split; [reflexivity|split;
                                            [reflexivity|]]]]).
  - now left.
  - intros response' H. injection H as <-. split; [reflexivity | now left].
  - right. eexists. split; [reflexivity | discriminate].
  - intros response' H. injection H as <-.
    split; [reflexivity | right; eexists; reflexivity].
  - now left.
  - intros response' H. discriminate.
  - right. eexists. split; [reflexivity | discriminate].
  - intros response' H. subst o.
    destruct Ho as [Ho | (value & expires & Ho)]; [discriminate|].
    injection Ho as ->.
    split; [reflexivity | right; eexists; reflexivity].
Qed.

(** X5.  [save_session] leaves response and world exactly as they were in
    two cases and no other: an early return applies, or the session is
    empty and unmodified. *)
Theorem save_session_noop_iff (self : SessionInterface) (app : Quart)
    (s : Session) (response : Response) (w : World) :
  save_session digest dumps self app s response w = (Ok response, w)
  <-> passes_early_checks self s response = false
      \/ (data s = ∅ /\ modified s = false).
Proof.
  assert (Hgrow : forall c st, client c st w <> w).
  { intros c st E. apply (f_equal (fun x => List.length (calls x))) in E.
    simpl in E. lia. }
  split.
  - intros Hrun.
    destruct (passes_early_checks self s response) eqn:Hp; [right | now left].
    destruct (decide (size (data s) = 0%nat)) as [He|Hne].
    + apply map_size_empty_iff in He. split; [exact He|].
      rewrite (save_session_empty_run _ _ _ _ _ _ _ He), Hp in Hrun.
      destruct (modified s); [|reflexivity].
      simpl in Hrun. injection Hrun as _ E. now apply Hgrow in E.
    + assert (Hd : data s <> ∅).
      { intros E. apply Hne. rewrite E. apply map_size_empty. }
      destruct (expiry_representable app s w) eqn:Hrep.
      * pose proof (save_session_store_run digest dumps self app s response
                      w Hp Hd Hrep) as Hrun'.
        cbv zeta in Hrun'. rewrite Hrun in Hrun'.
        destruct (cookie_value digest self app s);
          injection Hrun' as _ E; symmetry in E; now apply Hgrow in E.
      * rewrite (save_session_overflow_run digest dumps self app s response
                   w Hp Hd Hrep) in Hrun.
        discriminate.
  - intros [Hp | [He Hm]].
    + now apply save_session_skipped.
    + now apply save_session_untouched.
Qed.
End SavingMore.

Section SavingAgain.
Variable digest : string -> string -> string -> string.
Variable dumps : gmap string value -> string.

(** The store after [save_session], as a function of the store before. *)
Lemma save_session_store (self : SessionInterface) (app : Quart)
    (s : Session) (response : Response) (w : World) :
  let key := key_prefix self +:+ sid s in
  store (snd (save_session digest dumps self app s response w))
  = if passes_early_checks self s response then
      if Nat.eqb (size (data s)) 0 then
        if modified s then delete key (store w) else store w
      else if expiry_representable app s w
           then <[key := dumps (data s)]> (store w)
           else store w
    else store w.
Proof.
  intros key.
  destruct (passes_early_checks self s response) eqn:Hp.
  - destruct (Nat.eqb (size (data s)) 0) eqn:Hs.
    + apply Nat.eqb_eq, map_size_empty_iff in Hs.
      rewrite (save_session_empty_run _ _ _ _ _ _ _ Hs), Hp. simpl.
      now destruct (modified s).
    + apply Nat.eqb_neq in Hs.
      assert (Hd : data s <> ∅).
      { intros E. apply Hs. rewrite E. apply map_size_empty. }
      destruct (expiry_representable app s w) eqn:Hrep.
      * pose proof (save_session_store_run digest dumps self app s response
                      w Hp Hd Hrep) as Hrun.
        cbv zeta in Hrun. rewrite Hrun.
        now destruct (cookie_value digest self app s).
      * now rewrite (save_session_overflow_run digest dumps self app s
                       response w Hp Hd Hrep).
  - now rewrite (save_session_skipped digest dumps self app s response w Hp).
Qed.

(** Whether the expiry date can be computed depends on the clock alone. *)
Lemma expiry_representable_clock (app : Quart) (s : Session) (w w' : World) :
  clock w' = clock w ->
  expiry_representable app s w' = expiry_representable app s w.
Proof. intros H. unfold expiry_representable. now rewrite H. Qed.

Lemma save_session_clock (self : SessionInterface) (app : Quart)
    (s : Session) (response : Response) (w : World) :
  clock (snd (save_session digest dumps self app s response w)) = clock w.
Proof.
  destruct (save_session_cases digest dumps self app s response w)
    as [E | [E | [E | (expiry & o & E & _)]]]; now rewrite E.
Qed.

(** X6.  Saving the same session a second time, on a response of the same
    kind, leaves the store as the first save left it: the same payload
    under the same key, or the entry still absent. *)
Theorem save_session_twice (self : SessionInterface) (app : Quart)
    (s : Session) (response : Response) (w : World)
    (ops : list cookie_op) :
  let w1 := snd (save_session digest dumps self app s response w) in
  let w2 := snd (save_session digest dumps self app s
                   (with_cookie_ops ops response) w1) in
  store w2 = store w1
  /\ store w2 !! (key_prefix self +:+ sid s)
     = store w1 !! (key_prefix self +:+ sid s).
Proof.
  intros w1 w2.
  assert (E : store w2 = store w1).
  { subst w2. rewrite save_session_store.
    rewrite (expiry_representable_clock app s w w1)
      by apply save_session_clock.
    subst w1. rewrite save_session_store.
    change (passes_early_checks self s (with_cookie_ops ops response))
      with (passes_early_checks self s response).
    destruct (passes_early_checks self s response); [|reflexivity].
    destruct (Nat.eqb (size (data s)) 0).
    - destruct (modified s); [apply delete_delete_eq | reflexivity].
    - destruct (expiry_representable app s w);
        [apply insert_insert_eq | reflexivity]. }
  split; [exact E | now rewrite E].
Qed.
End SavingAgain.

(** ** What opening touches *)

(** A date within the calendar can be computed. *)
Lemma expiry_in_range (app : Quart) (s : Session) (w : World) :
  datetime.min <= clock w + td_microseconds (permanent_session_lifetime app)
  <= datetime.max ->
  expiry_representable app s w = true.
Proof.
  intros [Hlo Hhi]. unfold expiry_representable, datetime.add.
  apply Z.leb_le in Hlo, Hhi. rewrite Hlo, Hhi. simpl.
  apply orb_true_r.
Qed.

Section OpeningMore.
Variable digest : string -> string -> string -> string.
Variable verify : string -> string -> string -> string -> bool.
Variable dumps : gmap string value -> string.
Variable loads : string -> option decoded.

(** The worlds [open_session] can leave behind once it looks [raw] up: the
    lookup alone, then possibly a warning or the deletion of the entry, and
    a draw. *)
Lemma open_stored_world (self : SessionInterface) (app : Quart)
    (request : Request) (options : Options) (raw : string) (w : World) :
  let key := key_prefix self +:+ raw in
  let w1 := client (CallGet key) (store w) w in
  let w' := snd (open_stored loads self app request options raw w) in
  w' = w1
  \/ w' = drew w1
  \/ (exists msg, w' = drew (logged msg w1))
  \/ w' = drew (client (CallDelete key) (delete key (store w)) w1).
Proof.
  intros key w1 w'. subst w' w1 key.
  unfold open_stored, mbind, M_bind, _backend_get, fresh_session, warning,
    _backend_delete, _generate_sid, lift, mret, M_ret, ServerSideSession.
  destruct (backend_lookup _ _ _) as [[val|]|e]; simpl;
    [|now right; left|now left].
  destruct (loads val) as [[d|v]|]; simpl.
  - unfold initial_mapping.
    destruct (SESSION_HIJACK_PROTECTION _); simpl.
    + destruct (py_ne_str _ _); simpl; [now right; right; right|].
      destruct (d !! "self"); simpl; now left.
    + destruct (d !! "self"); simpl; now left.
  - destruct (SESSION_HIJACK_PROTECTION _); simpl; [now left|].
    destruct (truthy v); simpl; now left.
  - right. right. left. eexists. reflexivity.
Qed.

(** The same for the whole of [open_session]. *)
Lemma open_session_world (self : SessionInterface) (app : Quart)
    (request : Request) (w : World) :
  let w' := snd (open_session verify loads self app request w) in
  w' = drew w
  \/ (exists msg, w' = logged msg w)
  \/ (exists msg, w' = drew (logged msg w))
  \/ exists c raw,
       has_cookie app request c
       /\ identifier_of verify self app c = Some raw
       /\ w' = snd (open_stored loads self app request
                      (options_of self request) raw w).
Proof.
  intros w'. subst w'. unfold open_session, has_cookie, identifier_of.
  destruct (cookies request !! session_cookie_name app) as [c|];
    [|now left].
  destruct (String.eqb c "") eqn:Ec; [now left|].
  destruct (use_signer self).
  - destruct (_get_signer app) as [signer|].
    + destruct (itsdangerous.unsign verify signer c) as [raw|] eqn:Eu.
      * right. right. right. exists c, raw. now repeat split.
      * right. right. left. eexists. reflexivity.
    + right. left. eexists. reflexivity.
  - right. right. right. exists c, c. now repeat split.
Qed.

(** X7.  [open_session] never writes to the backend: it makes no [set]
    call, and the only entry that can leave the store is the one under the
    identifier read off the request's cookie.  It draws at most one
    identifier and leaves the clock alone. *)
Theorem open_session_bounds (self : SessionInterface) (app : Quart)
    (request : Request) (w : World) :
  let w' := snd (open_session verify loads self app request w) in
  (forall k,
     store w' !! k = store w !! k
     \/ (store w' !! k = None
         /\ exists c raw,
              has_cookie app request c
              /\ identifier_of verify self app c = Some raw
              /\ k = key_prefix self +:+ raw))
  /\ (forall k payload expiry,
        In (CallSet k payload expiry) (calls w') ->
        In (CallSet k payload expiry) (calls w))
  /\ (drawn w' = drawn w \/ drawn w' = S (drawn w))
  /\ clock w' = clock w.
Proof.
  intros w'.
  destruct (open_session_world self app request w)
    as [E | [(msg & E) | [(msg & E) | (c & raw & Hc & Hid & E)]]];
    fold w' in E; rewrite E; clear E.
  - simpl. repeat split; auto.
  - simpl. repeat split; auto.
  - simpl. repeat split; auto.
  - destruct (open_stored_world self app request (options_of self request)
                raw w) as [E | [E | [(msg & E) | E]]];
      rewrite E; clear E; simpl.
    + repeat split; auto.
      intros k p e [H|H]; [discriminate | exact H].
    + repeat split; auto.
      intros k p e [H|H]; [discriminate | exact H].
    + repeat split; auto.
      intros k p e [H|H]; [discriminate | exact H].
    + split; [|repeat split; auto].
      * intros k. destruct (decide (k = key_prefix self +:+ raw)) as [->|Hk].
        -- right. split; [apply lookup_delete_eq|].
           exists c, raw. split; [exact Hc | split; [exact Hid|reflexivity]].
        -- left. now rewrite lookup_delete_ne by congruence.
      * intros k p e [H|[H|H]]; [discriminate | discriminate | exact H].
Qed.

(** X8.  A stored payload that decodes, but not to a mapping, is not
    treated as a decode failure: with hijack protection on the call raises
    [AttributeError]; with it off, a truthy value raises [TypeError] and a
    falsy one gives an empty, unmodified session under the stored
    identifier.  In every case the entry stays in the store. *)
Theorem open_session_not_a_mapping (self : SessionInterface) (app : Quart)
    (request : Request) (w : World) (c raw val : string) (v : value) :
  has_cookie app request c ->
  identifier_of verify self app c = Some raw ->
  backend_lookup (kind self) (store w) (key_prefix self +:+ raw)
  = Ok (Some val) ->
  loads val = Some (DOther v) ->
  open_session verify loads self app request w
  = (if SESSION_HIJACK_PROTECTION (_config self) then Raise AttributeError
     else if truthy v then Raise TypeError
     else Ok (Some {| data := ∅; sid := raw; modified := false;
                      _dirty := false |}),
     client (CallGet (key_prefix self +:+ raw)) (store w) w).
Proof.
  intros Hc Hid Hval Hdec.
  rewrite (open_session_identified _ _ _ _ _ _ _ _ Hc Hid).
  unfold open_stored, mbind, M_bind, _backend_get.
  rewrite Hval, Hdec. unfold lift, addr_differs, ServerSideSession. simpl.
  destruct (SESSION_HIJACK_PROTECTION (_config self)); [reflexivity|].
  destruct (truthy v); reflexivity.
Qed.

(** X9.  On [RedisTrioSessionInterface] an entry whose payload is empty
    counts as absent: the request gets a new session, the serializer is
    not consulted, nothing is logged and the entry stays where it is. *)
Theorem open_session_trio_empty_payload (self : SessionInterface)
    (app : Quart) (request : Request) (w : World) (c raw : string) :
  kind self = RedisTrio ->
  has_cookie app request c ->
  identifier_of verify self app c = Some raw ->
  store w !! (key_prefix self +:+ raw) = Some "" ->
  let w' := snd (open_session verify loads self app request w) in
  fst (open_session verify loads self app request w)
  = Ok (Some (new_session self request (next_sid w)))
  /\ store w' !! (key_prefix self +:+ raw) = Some ""
  /\ warnings w' = warnings w.
Proof.
  intros Hk Hc Hid Hst w'. subst w'.
  rewrite (open_session_identified _ _ _ _ _ _ _ _ Hc Hid).
  rewrite open_stored_absent.
  - now repeat split.
  - unfold backend_lookup. now rewrite Hk, Hst.
Qed.

(** X10.  When the interface's [permanent] flag is off and hijack
    protection is off, the session a rejected request gets is empty and
    unmodified, and saving it as it is does nothing: no entry is written
    and no cookie is set, whatever the response. *)
Theorem new_session_untouched_not_saved (self : SessionInterface)
    (app : Quart) (request : Request) (w : World) (r : rejection)
    (old : option string) :
  permanent self = false ->
  SESSION_HIJACK_PROTECTION (_config self) = false ->
  rejects verify loads self app request w r old ->
  exists s,
    fst (open_session verify loads self app request w) = Ok (Some s)
    /\ data s = ∅
    /\ modified s = false
    /\ forall response w2,
         save_session digest dumps self app s response w2 = (Ok response, w2).
Proof.
  intros Hperm Hhij Hrej.
  destruct (rejects_run _ _ _ _ _ _ _ _ Hrej) as (w' & Hrun & _).
  exists (new_session self request (next_sid w)). rewrite Hrun.
  assert (Hd : data (new_session self request (next_sid w)) = ∅).
  { unfold new_session, early_addr. now rewrite Hperm, Hhij. }
  assert (Hm : modified (new_session self request (next_sid w)) = false).
  { unfold new_session, early_addr. now rewrite Hperm, Hhij. }
  repeat split; try assumption.
  intros response w2. now apply save_session_untouched.
Qed.

(** X11.  When the interface's [permanent] flag is on, the session a
    rejected request gets is saved as it is, provided no early return
    applies, a signer is there if signing is on, and now plus the lifetime
    is a date the calendar has: the entry goes under the key prefix
    followed by the identifier just drawn, and the cookie carries that
    identifier, signed if signing is on, and expires at that date. *)
Theorem new_session_saved (self : SessionInterface) (app : Quart)
    (request : Request) (w w2 : World) (r : rejection)
    (old : option string) (response : Response) :
  permanent self = true ->
  rejects verify loads self app request w r old ->
  SESSION_EXPLICIT (_config self) = false ->
  negb (SESSION_STATIC_FILE (_config self)) && is_file_body response
  = false ->
  (use_signer self = true -> str_truthy (secret_key app) = true) ->
  datetime.min <= clock w2 + td_microseconds (permanent_session_lifetime app)
  <= datetime.max ->
  exists s value expiry,
    fst (open_session verify loads self app request w) = Ok (Some s)
    /\ sid s = next_sid w
    /\ cookie_value digest self app s = Some value
    /\ (use_signer self = false -> value = next_sid w)
    /\ save_session digest dumps self app s response w2
       = (Ok (set_cookie response (session_cookie_name app) value
                (Some (clock w2
                       + td_microseconds (permanent_session_lifetime app)))
                (cookie_httponly app) (cookie_domain app) (cookie_path app)
                (cookie_secure app)),
          client (CallSet (key_prefix self +:+ next_sid w) (dumps (data s))
                    expiry)
            (<[key_prefix self +:+ next_sid w := dumps (data s)]> (store w2))
            w2).
Proof.
  intros Hperm Hrej Hexp Hfile Hkey Hrange.
  destruct (rejects_run _ _ _ _ _ _ _ _ Hrej) as (w' & Hrun & _).
  set (s := new_session self request (next_sid w)).
  assert (Hpm : data s !! "_permanent" = Some (VBool true)).
  { subst s. unfold new_session.
    now rewrite init_session_empty_permanent, Hperm. }
  assert (Hd : data s <> ∅).
  { intros E. rewrite E, lookup_empty in Hpm. discriminate. }
  assert (Hgp : get_permanent s = true).
  { unfold get_permanent. now rewrite Hpm. }
  assert (Hp : passes_early_checks self s response = true).
  { unfold passes_early_checks. now rewrite Hexp, Hfile. }
  assert (Hcv : exists value,
            cookie_value digest self app s = Some value
            /\ (use_signer self = false -> value = next_sid w)).
  { unfold cookie_value, _get_signer.
    destruct (use_signer self).
    - rewrite (Hkey eq_refl).
      destruct (secret_key app) as [k|] eqn:Ek.
      + eexists. split; [reflexivity | discriminate].
      + specialize (Hkey eq_refl). try rewrite Ek in Hkey. discriminate.
    - eexists. split; [reflexivity | reflexivity]. }
  destruct Hcv as (value & Hcv & Hraw).
  pose proof (save_session_store_run digest dumps self app s response w2
                Hp Hd (expiry_in_range app s w2 Hrange)) as Hsave.
  cbv zeta in Hsave. rewrite Hcv, Hgp in Hsave.
  exists s, value. eexists. rewrite Hrun.
  split; [reflexivity|]. split; [reflexivity|].
  split; [exact Hcv|]. split; [exact Hraw | exact Hsave].
Qed.
End OpeningMore.

(** ** Bound addresses and forwarded requests *)

Section Forwarded.
Variable verify : string -> string -> string -> string -> bool.
Variable loads : string -> option decoded.

(** X12.  With hijack protection on, a session is bound at its creation to
    the forwarded-for header of the request when there is one.  Presented
    again by a request with the same header and the same remote address, it
    is handed back if the reverse-proxy flag is set; if the flag is not set
    and the header differs from the remote address, it is turned down: the
    entry is deleted and a new identifier issued. *)
Theorem forwarded_session_check (self : SessionInterface) (app : Quart)
    (request : Request) (w : World) (c raw val i x : string) :
  SESSION_HIJACK_PROTECTION (_config self) = true ->
  headers request !! "X-Forwarded-For" = Some x ->
  String.eqb x "" = false ->
  String.eqb x (remote_addr request) = false ->
  has_cookie app request c ->
  identifier_of verify self app c = Some raw ->
  backend_lookup (kind self) (store w) (key_prefix self +:+ raw)
  = Ok (Some val) ->
  loads val = Some (DMapping (data (new_session self request i))) ->
  let d := data (new_session self request i) in
  let w' := snd (open_session verify loads self app request w) in
  d !! "_addr" = Some (VStr x)
  /\ fst (open_session verify loads self app request w)
     = Ok (Some (if SESSION_HIJACK_REVERSE_PROXY (_config self)
                 then rehydrated d raw
                 else new_session self request (next_sid w)))
  /\ store w' !! (key_prefix self +:+ raw)
     = (if SESSION_HIJACK_REVERSE_PROXY (_config self)
        then store w !! (key_prefix self +:+ raw)
        else None).
Proof.
  intros Hon Hx Hxne Hxr Hc Hid Hval Hdec d w'.
  assert (Hd : d !! "_addr" = Some (VStr x)).
  { subst d. unfold new_session.
    rewrite init_session_empty_addr. unfold early_addr, headers_get.
    rewrite Hon, Hx. simpl. now rewrite Hxne. }
  assert (Hpass : hijack_passes self request d
                  = SESSION_HIJACK_REVERSE_PROXY (_config self)).
  { unfold hijack_passes. rewrite Hon. simpl.
    rewrite (addr_matches_bound _ _ _ Hd). unfold check_addr, headers_get.
    rewrite Hx. simpl.
    destruct (SESSION_HIJACK_REVERSE_PROXY (_config self));
      [apply String.eqb_refl | exact Hxr]. }
  split; [exact Hd|]. subst w'.
  destruct (SESSION_HIJACK_REVERSE_PROXY (_config self)).
  - rewrite (open_session_passes _ _ _ _ _ _ _ _ _ _ Hc Hid Hval Hdec Hpass
               (new_session_no_self self request i)).
    split; reflexivity.
  - rewrite (open_session_identified _ _ _ _ _ _ _ _ Hc Hid).
    rewrite (open_stored_mismatch _ _ _ _ _ _ _ _ Hval Hdec Hpass).
    split; [reflexivity | apply lookup_delete_eq].
Qed.
End Forwarded.

(** ** Generated identifiers and signing *)

Section Unsigned.
Variable verify : string -> string -> string -> string -> bool.
Variable loads : string -> option decoded.

(** X13.  With signing on, a cookie that holds no separator is never
    accepted: the request gets a new session after a warning, and the
    backend is not called.  Every identifier [_generate_sid] produces is
    such a text, so a deployment that turns signing on turns down the
    identifiers it had issued unsigned. *)
Theorem open_session_unsigned_cookie (self : SessionInterface) (app : Quart)
    (request : Request) (w : World) (c : string) :
  use_signer self = true ->
  str_truthy (secret_key app) = true ->
  has_cookie app request c ->
  itsdangerous.has_sep c = false ->
  open_session verify loads self app request w
  = (Ok (Some (new_session self request (next_sid w))),
     drew (logged ("Bad signature for sid: " +:+ c +:+ ".") w))
  /\ forall w0, itsdangerous.has_sep (next_sid w0) = false.
Proof.
  intros Hu Hk [Hc Hne] Hsep. split; [|intros w0; apply has_sep_str].
  unfold open_session, _get_signer. rewrite Hc, Hne, Hu, Hk.
  destruct (secret_key app) as [k|]; [|discriminate].
  unfold itsdangerous.unsign. now rewrite (rsplit_no_sep _ Hsep).
Qed.
End Unsigned.

(** The version nibble of a [uuid4] is 4, whatever was drawn. *)
Lemma uuid4_version (rnd : Z) :
  Z.land (Z.shiftr (uuid.uuid4 rnd) 76) 15 = 4.
Proof.
  unfold uuid.uuid4. cbv zeta.
  rewrite Z.shiftr_lor, Z.shiftr_land, Z.land_lor_distr_l.
  rewrite <- Z.land_assoc.
  change (Z.land (Z.shiftr (Z.lnot (Z.shiftl 61440 64)) 76) 15) with 0.
  rewrite Z.land_0_r.
  reflexivity.
Qed.

(** X14.  Every identifier [_generate_sid] produces is a text of 36
    characters in the form of a version-4 UUID: hyphens after 8, 12, 16 and
    20 hexadecimal digits and the digit 4 as the version; it is never empty
    and holds no separator of the signer. *)
Theorem generated_sid_format (w : World) :
  let s := next_sid w in
  String.length s = 36%nat
  /\ String.get 8 s = Some "-"%char
  /\ String.get 13 s = Some "-"%char
  /\ String.get 18 s = Some "-"%char
  /\ String.get 23 s = Some "-"%char
  /\ String.get 14 s = Some "4"%char
  /\ itsdangerous.has_sep s = false
  /\ fst (_generate_sid w) = Ok s
  /\ drawn (snd (_generate_sid w)) = S (drawn w).
Proof.
  intros s. subst s. unfold next_sid.
  split; [apply length_str|].
  split; [cbv [uuid.str uuid.hex String.append substring String.get];
          reflexivity|].
  split; [cbv [uuid.str uuid.hex String.append substring String.get];
          reflexivity|].
  split; [cbv [uuid.str uuid.hex String.append substring String.get];
          reflexivity|].
  split; [cbv [uuid.str uuid.hex String.append substring String.get];
          reflexivity|].
  split.
  - cbv [uuid.str uuid.hex String.append substring String.get].
    repeat rewrite Z.shiftr_shiftr by lia.
    change (4 + (4 + (4 + (4 + (4 + (4 + (4 + (4 + (4 + (4 + (4 + (4 +
            (4 + (4 + (4 + (4 + (4 + (4 + 4)))))))))))))))))) with 76.
    now rewrite uuid4_version.
  - split; [apply has_sep_str|]. split; reflexivity.
Qed.

(** ** Lifetimes *)

(** X15.  [total_seconds] rounds a lifetime down to whole seconds: the
    microseconds are dropped, also for a negative duration, which Python
    keeps as negative days with non-negative seconds and microseconds. *)
Theorem total_seconds_floor (td : timedelta) :
  td_normal td ->
  total_seconds td * 1000000 <= td_microseconds td
  /\ td_microseconds td < (total_seconds td + 1) * 1000000
  /\ (microseconds td = 0 -> total_seconds td * 1000000 = td_microseconds td).
Proof.
  intros [Hs Hm]. unfold total_seconds, td_microseconds. lia.
Qed.

(** ** The constructor *)

(** X16.  [ServerSideSession.__init__] refuses an initial mapping with
    the key [self] and builds a session from any other.  It keeps the
    initial mapping and adds at most two entries to it: [_permanent] when
    [permanent] is true and [_addr] when [addr] is a non-empty text, each
    replacing an entry of that name.  The session counts as modified
    exactly when one of them was added; it is never dirty.  The property
    [addr] then reads the address back, and reads [False] when none is
    stored. *)
Theorem constructor_entries (d : gmap string value) (i : string)
    (p : option bool) (a : option string) :
  let s := init_session d i p a in
  ServerSideSession (Some (DMapping d)) i p a
  = match d !! "self" with
    | Some _ => Raise TypeError
    | None => Ok s
    end
  /\ sid s = i
  /\ _dirty s = false
  /\ modified s = (match p with Some true => true | _ => false end
                   || str_truthy a)
  /\ data s !! "_permanent"
     = (match p with Some true => Some (VBool true) | _ => d !! "_permanent"
        end)
  /\ data s !! "_addr"
     = (if str_truthy a then VStr <$> a else d !! "_addr")
  /\ (forall k, k <> "_permanent" -> k <> "_addr" -> data s !! k = d !! k)
  /\ get_addr s
     = (if str_truthy a then default (VBool false) (VStr <$> a)
        else default (VBool false) (d !! "_addr")).
Proof.
  intros s. split.
  { unfold ServerSideSession, initial_mapping. now destruct (d !! "self"). }
  subst s.
  unfold init_session, set_permanent, set_addr, setitem, get_addr.
  destruct p as [[|]|], a as [a|]; simpl;
    try destruct (String.eqb a "") eqn:Ea; simpl;
    do 3 (split; [reflexivity|]);
    (split; [|split; [|split]]);
    try (intros k Hp Ha);
    repeat (first [ rewrite lookup_insert_eq
                  | rewrite lookup_insert_ne by congruence ]);
    reflexivity.
Qed.

(** ** Payloads that cannot be used *)

Section Unusable.
Variable verify : string -> string -> string -> string -> bool.
Variable loads : string -> option decoded.

(** X18.  A payload that the serializer does not decode is left in the
    store: the request gets a new session and a warning that names the
    identifier is logged, but the entry is neither deleted nor overwritten
    by [open_session]. *)
Theorem open_session_undecodable_kept (self : SessionInterface)
    (app : Quart) (request : Request) (w : World) (c raw val : string) :
  has_cookie app request c ->
  identifier_of verify self app c = Some raw ->
  backend_lookup (kind self) (store w) (key_prefix self +:+ raw)
  = Ok (Some val) ->
  loads val = None ->
  let w' := snd (open_session verify loads self app request w) in
  fst (open_session verify loads self app request w)
  = Ok (Some (new_session self request (next_sid w)))
  /\ store w' = store w
  /\ calls w' = CallGet (key_prefix self +:+ raw) :: calls w
  /\ warnings w'
     = ("Failed to deserialize session data for sid: " +:+ raw
        +:+ ". Generating new sid.") :: warnings w.
Proof.
  intros Hc Hid Hval Hdec w'. subst w'.
  rewrite (open_session_identified _ _ _ _ _ _ _ _ Hc Hid).
  rewrite (open_stored_undecodable _ _ _ _ _ _ _ Hval Hdec).
  now repeat split.
Qed.

(** X19.  On [RedisTrioSessionInterface] a stored payload that is not
    empty and not well-formed UTF-8 ends the call: decoding it raises
    [UnicodeDecodeError] in [_backend_get], outside the [try] around the
    serializer.  The lookup has been made; no session is returned, nothing
    is logged, no identifier is drawn and the entry stays, so that every
    later request with that cookie fares the same. *)
Theorem open_session_trio_undecodable_bytes (self : SessionInterface)
    (app : Quart) (request : Request) (w : World) (c raw val : string) :
  kind self = RedisTrio ->
  has_cookie app request c ->
  identifier_of verify self app c = Some raw ->
  store w !! (key_prefix self +:+ raw) = Some val ->
  String.eqb val "" = false ->
  utf8.valid val = false ->
  let w' := client (CallGet (key_prefix self +:+ raw)) (store w) w in
  open_session verify loads self app request w
  = (Raise UnicodeDecodeError, w')
  /\ open_session verify loads self app request w'
     = (Raise UnicodeDecodeError,
        client (CallGet (key_prefix self +:+ raw)) (store w) w').
Proof.
  intros Hk Hc Hid Hst Hne Hbad w'.
  assert (Hl : forall w0, store w0 = store w ->
            backend_lookup (kind self) (store w0) (key_prefix self +:+ raw)
            = Raise UnicodeDecodeError).
  { intros w0 E. unfold backend_lookup. now rewrite Hk, E, Hst, Hne, Hbad. }
  split.
  - rewrite (open_session_identified _ _ _ _ _ _ _ _ Hc Hid).
    now rewrite (open_stored_raises _ _ _ _ _ _ _ _ (Hl w eq_refl)).
  - rewrite (open_session_identified _ _ _ _ _ _ _ _ Hc Hid).
    now rewrite (open_stored_raises _ _ _ _ _ _ _ _ (Hl w' eq_refl)).
Qed.

(** X20.  A stored mapping with an entry under [self] that gets through
    the hijack check is refused by the constructor: [open_session] raises
    [TypeError] once the lookup is made, and leaves the entry where it
    is. *)
Theorem open_session_reserved_key (self : SessionInterface) (app : Quart)
    (request : Request) (w : World) (c raw val : string)
    (d : gmap string value) :
  has_cookie app request c ->
  identifier_of verify self app c = Some raw ->
  backend_lookup (kind self) (store w) (key_prefix self +:+ raw)
  = Ok (Some val) ->
  loads val = Some (DMapping d) ->
  hijack_passes self request d = true ->
  is_Some (d !! "self") ->
  open_session verify loads self app request w
  = (Raise TypeError,
     client (CallGet (key_prefix self +:+ raw)) (store w) w).
Proof.
  intros Hc Hid Hval Hdec Hpass [v Hv].
  rewrite (open_session_rebuilds _ _ _ _ _ _ _ _ _ _ Hc Hid Hval Hdec Hpass).
  now rewrite rebuilt_mapping, Hv.
Qed.
End Unusable.

(** ** Saving and opening again *)

Section RoundTrip.
Variable digest : string -> string -> string -> string.
Variable verify : string -> string -> string -> string -> bool.
Variable dumps : gmap string value -> string.
Variable loads : string -> option decoded.

(** X21.  A session that is not empty and gets past the early returns is
    written to the backend, provided the cookie's expiry date can be
    computed: the encoded mapping goes under the key [key_prefix] followed
    by the identifier, to live for the application's permanent-session
    lifetime in whole seconds, whether or not the session is permanent (on
    Memcached a lifetime above 30 days is passed as the date of expiry).
    Then, provided there is a signer when signing is on, the response
    cookie is set, to the signed identifier with signing on and to the
    identifier itself otherwise. *)
Theorem save_session_persists (self : SessionInterface) (app : Quart)
    (s : Session) (response : Response) (w : World) :
  passes_early_checks self s response = true ->
  data s <> ∅ ->
  expiry_representable app s w = true ->
  let key := key_prefix self +:+ sid s in
  let ttl := total_seconds (permanent_session_lifetime app) in
  exists expiry,
    let w' := client (CallSet key (dumps (data s)) expiry)
                (<[key := dumps (data s)]> (store w)) w in
    (exists o, save_session digest dumps self app s response w = (o, w'))
    /\ store w' !! key = Some (dumps (data s))
    /\ (td_normal (permanent_session_lifetime app) ->
        ttl = td_microseconds (permanent_session_lifetime app) / 1000000)
    /\ (kind self <> Memcached -> expiry = ttl)
    /\ (0 <= clock w -> lifetime_of (kind self) (time_int w) expiry = ttl)
    /\ (forall signer,
          (use_signer self = true -> _get_signer app = Some signer) ->
          save_session digest dumps self app s response w
          = (Ok (set_cookie response (session_cookie_name app)
                   (if use_signer self
                    then itsdangerous.sign digest signer (sid s)
                    else sid s)
                   (if get_permanent s
                    then Some (clock w + td_microseconds
                                           (permanent_session_lifetime app))
                    else None)
                   (cookie_httponly app) (cookie_domain app)
                   (cookie_path app) (cookie_secure app)), w')).
Proof.
  intros Hp Hne Hrep key ttl.
  pose proof (save_session_store_run digest dumps self app s response w Hp
                Hne Hrep) as Hrun.
  cbv zeta in Hrun. fold key ttl in Hrun.
  exists (match kind self with
          | Memcached => if ttl >? 2592000 then ttl + time_int w else ttl
          | _ => ttl
          end).
  split; [|split; [|split; [|split; [|split]]]].
  - rewrite Hrun. destruct (cookie_value digest self app s); eexists;
      reflexivity.
  - simpl. apply lookup_insert_eq.
  - apply total_seconds_whole.
  - intros Hk. destruct (kind self); [reflexivity | reflexivity | congruence].
  - intros Hc. apply time_int_nonneg in Hc. unfold lifetime_of.
    destruct (kind self); try reflexivity.
    destruct (ttl >? 2592000) eqn:E; [|now rewrite E].
    apply Z.gtb_lt in E.
    assert (E' : (ttl + time_int w >? 2592000) = true)
      by (apply Z.gtb_lt; lia).
    rewrite E'. lia.
  - intros signer Hs. rewrite Hrun. unfold cookie_value.
    destruct (use_signer self); [|reflexivity].
    now rewrite (Hs eq_refl).
Qed.

(** X22.  A permanent session whose expiry date lies beyond the calendar
    is not saved: [get_expiration_time] raises [OverflowError] before the
    backend is called, so that no entry is written and no cookie is set. *)
Theorem save_session_overflow (self : SessionInterface) (app : Quart)
    (s : Session) (response : Response) (w : World) :
  passes_early_checks self s response = true ->
  data s <> ∅ ->
  get_permanent s = true ->
  datetime.max < clock w + td_microseconds (permanent_session_lifetime app)
  \/ clock w + td_microseconds (permanent_session_lifetime app)
     < datetime.min ->
  save_session digest dumps self app s response w = (Raise OverflowError, w).
Proof.
  intros Hp Hne Hperm Hout.
  apply save_session_overflow_run; try assumption.
  unfold expiry_representable, datetime.add. rewrite Hperm. simpl.
  destruct Hout as [H|H].
  - assert (E : (clock w + td_microseconds (permanent_session_lifetime app)
                 <=? datetime.max) = false) by (apply Z.leb_gt; exact H).
    now rewrite E, andb_false_r.
  - assert (E : (datetime.min
                 <=? clock w
                     + td_microseconds (permanent_session_lifetime app))
                = false) by (apply Z.leb_gt; exact H).
    now rewrite E.
Qed.

(** X23.  A session saved by [save_session] is found again by
    [open_session]: the payload it looks up is the one that was written,
    under the same key, right after the save and in any later world that
    still holds it; the cookie that was set is accepted, like every other
    cookie the signer strips to the identifier; and the session returned is
    built from what the serializer decodes that payload to, so that it
    holds the saved mapping exactly when decoding undoes encoding on it. *)
Theorem save_then_open (self : SessionInterface) (app : Quart)
    (s : Session) (response : Response) (w : World)
    (d : gmap string value) :
  passes_early_checks self s response = true ->
  data s <> ∅ ->
  String.eqb (sid s) "" = false ->
  expiry_representable app s w = true ->
  (use_signer self = true ->
   exists signer,
     _get_signer app = Some signer
     /\ itsdangerous.sound digest verify signer (sid s)) ->
  (kind self = RedisTrio ->
   String.eqb (dumps (data s)) "" = false
   /\ utf8.valid (dumps (data s)) = true) ->
  loads (dumps (data s)) = Some (DMapping d) ->
  d !! "self" = None ->
  let key := key_prefix self +:+ sid s in
  exists value expires w',
    cookie_value digest self app s = Some value
    /\ String.eqb value "" = false
    /\ identifier_of verify self app value = Some (sid s)
    /\ save_session digest dumps self app s response w
       = (Ok (set_cookie response (session_cookie_name app) value expires
                (cookie_httponly app) (cookie_domain app) (cookie_path app)
                (cookie_secure app)), w')
    /\ backend_lookup (kind self) (store w') key
       = Ok (Some (dumps (data s)))
    /\ (forall (later : World) (request : Request) (c : string),
          backend_lookup (kind self) (store later) key
          = Ok (Some (dumps (data s))) ->
          has_cookie app request c ->
          identifier_of verify self app c = Some (sid s) ->
          hijack_passes self request d = true ->
          exists s',
            open_session verify loads self app request later
            = (Ok (Some s'), client (CallGet key) (store later) later)
            /\ data s' = d
            /\ sid s' = sid s
            /\ modified s' = false).
Proof.
  intros Hp Hne Hsid Hrep Hsigner Htrio Hdec Hself key.
  pose proof (save_session_store_run digest dumps self app s response w Hp
                Hne Hrep) as Hrun.
  cbv zeta in Hrun.
  assert (Hval : exists value,
             cookie_value digest self app s = Some value
             /\ String.eqb value "" = false
             /\ identifier_of verify self app value = Some (sid s)).
  { unfold cookie_value, identifier_of.
    destruct (use_signer self).
    - destruct (Hsigner eq_refl) as (signer & Hg & Hsound). rewrite Hg.
      eexists. split; [reflexivity|]. split.
      + apply eqb_empty_false, sign_nonempty.
      + now apply unsign_sign.
    - exists (sid s). now repeat split. }
  destruct Hval as (value & Hcv & Hvne & Hid).
  rewrite Hcv in Hrun.
  eexists value, _, _. split; [exact Hcv|]. split; [exact Hvne|].
  split; [exact Hid|]. split; [exact Hrun|]. split.
  - simpl. unfold backend_lookup. rewrite lookup_insert_eq.
    destruct (kind self) eqn:Hk; try reflexivity.
    destruct (Htrio eq_refl) as [H1 H2]. now rewrite H1, H2.
  - intros later request c Hlook Hc Hidc Hhij.
    exists (rehydrated d (sid s)).
    split; [|now repeat split].
    now apply (open_session_passes verify loads self app request later c
                 (sid s) (dumps (data s)) d).
Qed.
End RoundTrip.

(** ** The further properties on sample inputs *)

(** A list stored where a mapping is expected, hijack protection off. *)
Lemma open_session_not_a_mapping_witness :
  let self := Sample.interface Redis false false
                (Sample.config false false false) in
  let app := Sample.app None 31 in
  let request := Sample.request (Some "abc-123") "10.0.0.1" in
  let w := Sample.world (<["session:abc-123" := "[1, 2]"]> ∅) in
  fst (open_session Sample.verify Fixtures.loads self app request w)
  = Raise TypeError.
Proof.
  intros self app request w.
  assert (Hc : has_cookie app request "abc-123")
    by (split; vm_compute; reflexivity).
  assert (Hv : backend_lookup (kind self) (store w)
                 (key_prefix self +:+ "abc-123") = Ok (Some "[1, 2]"%string))
    by (vm_compute; reflexivity).
  rewrite (open_session_not_a_mapping Sample.verify Fixtures.loads self app
             request w "abc-123" "abc-123" "[1, 2]"
             (VList [VInt 1; VInt 2]) Hc eq_refl Hv eq_refl).
  reflexivity.
Defined.

(** An empty payload on the interface for Redis with Trio. *)
Lemma open_session_trio_empty_payload_witness :
  let self := Sample.interface RedisTrio false false
                (Sample.config false false false) in
  let app := Sample.app None 31 in
  let request := Sample.request (Some "abc-123") "10.0.0.1" in
  let w := Sample.world (<["session:abc-123" := ""]> ∅) in
  fst (open_session Sample.verify Sample.loads self app request w)
  = Ok (Some (new_session self request (next_sid w))).
Proof.
  intros self app request w.
  assert (Hc : has_cookie app request "abc-123")
    by (split; vm_compute; reflexivity).
  assert (Hst : store w !! (key_prefix self +:+ "abc-123") = Some ""%string)
    by (vm_compute; reflexivity).
  exact (proj1 (open_session_trio_empty_payload Sample.verify Sample.loads
                  self app request w "abc-123" "abc-123" eq_refl Hc eq_refl
                  Hst)).
Defined.

(** A first visit, nothing permanent, nothing bound: nothing to save. *)
Lemma new_session_untouched_not_saved_witness :
  let self := Sample.interface Redis false false
                (Sample.config false false false) in
  let app := Sample.app None 31 in
  let request := Sample.request None "10.0.0.1" in
  exists s,
    fst (open_session Sample.verify Sample.loads self app request
           (Sample.world ∅)) = Ok (Some s)
    /\ save_session Sample.digest Sample.dumps self app s Sample.response
         (Sample.world ∅)
       = (Ok Sample.response, Sample.world ∅).
Proof.
  intros self app request.
  assert (Hrej : rejects Sample.verify Sample.loads self app request
                   (Sample.world ∅) MissingCookie None)
    by (apply rejects_missing; reflexivity).
  destruct (new_session_untouched_not_saved Sample.digest Sample.verify
              Sample.dumps Sample.loads self app request (Sample.world ∅)
              MissingCookie None eq_refl eq_refl Hrej)
    as (s & Hrun & _ & _ & Hsave).
  exists s. split; [exact Hrun | apply Hsave].
Defined.

(** A first visit on a permanent interface: entry and cookie under the
    identifier just drawn. *)
Lemma new_session_saved_witness :
  let self := Sample.interface Redis false true
                (Sample.config false false false) in
  let app := Sample.app None 31 in
  let request := Sample.request None "10.0.0.1" in
  let w := Sample.world ∅ in
  exists s value,
    fst (open_session Sample.verify Sample.loads self app request w)
    = Ok (Some s)
    /\ cookie_value Sample.digest self app s = Some value
    /\ value = next_sid w.
Proof.
  intros self app request w.
  assert (Hrej : rejects Sample.verify Sample.loads self app request w
                   MissingCookie None)
    by (apply rejects_missing; reflexivity).
  assert (Hsigner : use_signer self = true ->
                    str_truthy (secret_key app) = true)
    by (intros H; discriminate H).
  assert (Hrange : datetime.min
                   <= clock w
                      + td_microseconds (permanent_session_lifetime app)
                   <= datetime.max)
    by (vm_compute; split; discriminate).
  destruct (new_session_saved Sample.digest Sample.verify Sample.dumps
              Sample.loads self app request w w MissingCookie None
              Sample.response eq_refl Hrej eq_refl eq_refl Hsigner Hrange)
    as (s & value & expiry & Hrun & _ & Hcv & Hraw & _).
  exists s, value. split; [exact Hrun|]. split; [exact Hcv|].
  now apply Hraw.
Defined.

(** A client behind a proxy that is not declared: its own session is
    turned down. *)
Lemma forwarded_session_check_witness :
  let self := Sample.interface Redis false false
                (Sample.config true false false) in
  let app := Sample.app None 31 in
  let request := Fixtures.forwarded (Some "abc-123") "203.0.113.7"
                   "10.0.0.1" in
  let w := Sample.world
             (<["session:abc-123" := Fixtures.forwarded_payload]> ∅) in
  fst (open_session Sample.verify Fixtures.loads self app request w)
  = Ok (Some (new_session self request (next_sid w)))
  /\ store (snd (open_session Sample.verify Fixtures.loads self app request
                   w)) !! "session:abc-123" = None.
Proof.
  intros self app request w.
  assert (Hx : headers request !! "X-Forwarded-For" = Some "203.0.113.7"%string)
    by (vm_compute; reflexivity).
  assert (Hc : has_cookie app request "abc-123")
    by (split; vm_compute; reflexivity).
  assert (Hv : backend_lookup (kind self) (store w)
                 (key_prefix self +:+ "abc-123")
               = Ok (Some Fixtures.forwarded_payload))
    by (vm_compute; reflexivity).
  assert (Hl : Fixtures.loads Fixtures.forwarded_payload
               = Some (DMapping (data (new_session self request "abc-123"))))
    by (vm_compute; reflexivity).
  destruct (forwarded_session_check Sample.verify Fixtures.loads self app
              request w "abc-123" "abc-123" Fixtures.forwarded_payload
              "abc-123" "203.0.113.7" eq_refl Hx eq_refl eq_refl Hc eq_refl
              Hv Hl) as (_ & Hrun & Hst).
  split; [exact Hrun | exact Hst].
Defined.

(** An identifier issued unsigned, presented once signing is on. *)
Lemma open_session_unsigned_cookie_witness :
  let self := Sample.interface Redis true false
                (Sample.config false false false) in
  let app := Sample.app (Some "k") 31 in
  let request := Sample.request (Some "abc-123") "10.0.0.1" in
  let w := Sample.world (<["session:abc-123" := Sample.payload]> ∅) in
  open_session Sample.verify Sample.loads self app request w
  = (Ok (Some (new_session self request (next_sid w))),
     drew (logged "Bad signature for sid: abc-123." w)).
Proof.
  intros self app request w.
  assert (Hc : has_cookie app request "abc-123")
    by (split; vm_compute; reflexivity).
  exact (proj1 (open_session_unsigned_cookie Sample.verify Sample.loads self
                  app request w "abc-123" eq_refl eq_refl Hc eq_refl)).
Defined.

(** One microsecond before zero: minus one second. *)
Lemma total_seconds_floor_witness :
  let td := {| days := -1; seconds := 86399; microseconds := 999999 |} in
  total_seconds td = -1
  /\ total_seconds td * 1000000 <= td_microseconds td
  /\ td_microseconds td = -1.
Proof.
  intros td.
  assert (Hn : td_normal td) by (unfold td_normal; simpl; lia).
  destruct (total_seconds_floor td Hn) as (Hle & _ & _).
  split; [reflexivity|]. split; [exact Hle | reflexivity].
Defined.

(** A payload the serializer does not know. *)
Lemma open_session_undecodable_kept_witness :
  let self := Sample.interface Redis false false
                (Sample.config false false false) in
  let app := Sample.app None 31 in
  let request := Sample.request (Some "abc-123") "10.0.0.1" in
  let w := Sample.world (<["session:abc-123" := "garbage"]> ∅) in
  store (snd (open_session Sample.verify Sample.loads self app request w))
  = store w.
Proof.
  intros self app request w.
  assert (Hc : has_cookie app request "abc-123")
    by (split; vm_compute; reflexivity).
  assert (Hv : backend_lookup (kind self) (store w)
                 (key_prefix self +:+ "abc-123")
               = Ok (Some "garbage"%string))
    by (vm_compute; reflexivity).
  destruct (open_session_undecodable_kept Sample.verify Sample.loads self app
              request w "abc-123" "abc-123" "garbage" Hc eq_refl Hv eq_refl)
    as (_ & Hst & _).
  exact Hst.
Defined.

(** The byte 255 stored for a client of the interface for Redis with
    Trio. *)
Lemma open_session_trio_undecodable_bytes_witness :
  let self := Sample.interface RedisTrio false false
                (Sample.config false false false) in
  let app := Sample.app None 31 in
  let request := Sample.request (Some "abc-123") "10.0.0.1" in
  let w := Sample.world (<["session:abc-123" := Fixtures.not_utf8]> ∅) in
  fst (open_session Sample.verify Sample.loads self app request w)
  = Raise UnicodeDecodeError.
Proof.
  intros self app request w.
  assert (Hc : has_cookie app request "abc-123")
    by (split; vm_compute; reflexivity).
  assert (Hst : store w !! (key_prefix self +:+ "abc-123")
                = Some Fixtures.not_utf8) by (vm_compute; reflexivity).
  rewrite (proj1 (open_session_trio_undecodable_bytes Sample.verify
                    Sample.loads self app request w "abc-123" "abc-123"
                    Fixtures.not_utf8 eq_refl Hc eq_refl Hst eq_refl
                    eq_refl)).
  reflexivity.
Defined.

(** A mapping stored with an entry under [self]. *)
Lemma open_session_reserved_key_witness :
  let self := Sample.interface Redis false false
                (Sample.config false false false) in
  let app := Sample.app None 31 in
  let request := Sample.request (Some "abc-123") "10.0.0.1" in
  let w := Sample.world
             (<["session:abc-123" := Fixtures.reserved_payload]> ∅) in
  fst (open_session Sample.verify Fixtures.loads self app request w)
  = Raise TypeError.
Proof.
  intros self app request w.
  assert (Hc : has_cookie app request "abc-123")
    by (split; vm_compute; reflexivity).
  assert (Hv : backend_lookup (kind self) (store w)
                 (key_prefix self +:+ "abc-123")
               = Ok (Some Fixtures.reserved_payload))
    by (vm_compute; reflexivity).
  assert (Hself : is_Some (Fixtures.reserved !! "self"))
    by (exists (VInt 1); vm_compute; reflexivity).
  rewrite (open_session_reserved_key Sample.verify Fixtures.loads self app
             request w "abc-123" "abc-123" Fixtures.reserved_payload
             Fixtures.reserved Hc eq_refl Hv eq_refl eq_refl Hself).
  reflexivity.
Defined.

(** Forty days on Memcached, signing on: the entry lives forty days. *)
Lemma save_session_persists_witness :
  let self := Sample.interface Memcached true true
                (Sample.config false false false) in
  let app := Sample.app (Some "k") 40 in
  let s := Sample.session Sample.saved true false in
  let w := Sample.world ∅ in
  exists expiry,
    store (client (CallSet "session:abc-123" Sample.payload expiry)
             (<["session:abc-123" := Sample.payload]> (store w)) w)
      !! "session:abc-123" = Some Sample.payload
    /\ lifetime_of Memcached (time_int w) expiry = 3456000.
Proof.
  intros self app s w.
  destruct (save_session_persists Sample.digest Sample.dumps self app s
              Sample.response w eq_refl saved_nonempty eq_refl)
    as (expiry & _ & Hst & _ & _ & Hl & _).
  exists expiry. split; [exact Hst|].
  apply Hl. vm_compute. discriminate.
Defined.

(** A permanent session and a lifetime of four million days. *)
Lemma save_session_overflow_witness :
  let self := Sample.interface Redis false true
                (Sample.config false false false) in
  let app := Sample.app None 4000000 in
  let s := set_permanent true (Sample.session Sample.saved true false) in
  let w := Sample.world ∅ in
  fst (save_session Sample.digest Sample.dumps self app s Sample.response w)
  = Raise OverflowError
  /\ calls (snd (save_session Sample.digest Sample.dumps self app s
                   Sample.response w)) = [].
Proof.
  intros self app s w.
  assert (Hne : data s <> ∅).
  { intros E. apply (f_equal (fun m => m !! "_permanent")) in E.
    vm_compute in E. discriminate. }
  assert (Hout : datetime.max
                 < clock w + td_microseconds (permanent_session_lifetime app)
                 \/ clock w + td_microseconds (permanent_session_lifetime app)
                    < datetime.min)
    by (left; vm_compute; reflexivity).
  rewrite (save_session_overflow Sample.digest Sample.dumps self app s
             Sample.response w eq_refl Hne eq_refl Hout).
  split; reflexivity.
Defined.

(** Saved under a signed cookie, opened with that cookie. *)
Lemma save_then_open_witness :
  let self := Sample.interface Redis true true
                (Sample.config true false false) in
  let app := Sample.app (Some "k") 31 in
  let s := Sample.session Sample.saved true false in
  let request := Sample.request (Some "abc-123.a403") "10.0.0.1" in
  exists s',
    fst (open_session Sample.verify Sample.loads self app request
           (snd (save_session Sample.digest Sample.dumps self app s
                   Sample.response (Sample.world ∅))))
    = Ok (Some s')
    /\ data s' = Sample.saved.
Proof.
  intros self app s request.
  assert (Hsigner : use_signer self = true ->
            exists signer,
              _get_signer app = Some signer
              /\ itsdangerous.sound Sample.digest Sample.verify signer
                   (sid s)).
  { intros _.
    exists {| itsdangerous.signer_secret := "k";
              itsdangerous.signer_salt := "quart-session" |}.
    split; [reflexivity | split; vm_compute; reflexivity]. }
  assert (Htrio : kind self = RedisTrio ->
                  String.eqb (Sample.dumps (data s)) "" = false
                  /\ utf8.valid (Sample.dumps (data s)) = true)
    by (intros H; discriminate H).
  assert (Hhij : hijack_passes self request Sample.saved = true)
    by (vm_compute; reflexivity).
  assert (Hself : Sample.saved !! "self" = None) by (vm_compute; reflexivity).
  assert (Hc : has_cookie app request "abc-123.a403")
    by (split; vm_compute; reflexivity).
  assert (Hidc : identifier_of Sample.verify self app "abc-123.a403"
                 = Some (sid s)) by (vm_compute; reflexivity).
  destruct (save_then_open Sample.digest Sample.verify Sample.dumps
              Sample.loads self app s Sample.response (Sample.world ∅)
              Sample.saved eq_refl saved_nonempty eq_refl eq_refl Hsigner
              Htrio eq_refl Hself)
    as (value & expires & w' & _ & _ & _ & Hsave & Hlook & Hopen).
  rewrite Hsave. simpl snd.
  destruct (Hopen w' request "abc-123.a403" Hlook Hc Hidc Hhij)
    as (s' & Ho & Hd & _).
  exists s'. rewrite Ho. split; [reflexivity | exact Hd].
Defined.
